(** * IBIS_Sender: the telegram pipeline of [IBIS_Sender_MQTT.ino]

    A shallow embedding of the sketch's C code.  Arrays are lists of cells,
    a [char*] is the list of cells from the pointed-to position to the end of
    its array, and every access outside an array, or to a cell that was never
    written, is a [Fault].  The sinks (debug serial port, IBIS serial port,
    lighting pin) are traces inside the [World] record. *)

From Stdlib Require Import ZArith Lia String Ascii.
From stdpp Require Import base list.

Local Open Scope Z_scope.

(** ** Results of C code: a value, or undefined behaviour *)

Inductive fault : Set :=
| OutOfBounds      (* access outside the array *)
| Uninitialised    (* read of a cell that was never written *)
| OutOfFuel.       (* loop bound of the model exhausted; never reached *)

Inductive result (A : Type) : Type :=
| Ok (a : A)
| Fault (f : fault).
Arguments Ok {A} a.
Arguments Fault {A} f.

Definition bind {A B : Type} (r : result A) (k : A -> result B) : result B :=
  match r with
  | Ok a => k a
  | Fault f => Fault f
  end.

Notation "'let*' x ':=' e 'in' k" := (bind e (fun x => k))
  (at level 10, x name, e at level 100, k at level 200).

(** ** Memory: arrays of cells *)

(** A cell holds a byte ([Some c], [0 <= c < 256]) or was never written. *)
Abbreviation cell := (option Z).
Abbreviation buffer := (list (option Z)).

(** [char a[n];] on the stack. *)
Definition uninit (n : nat) : buffer := replicate n None.

(** The code points of a string literal, without terminator. *)
Definition bytes (s : string) : list Z :=
  (fun a => Z.of_N (N_of_ascii a)) <$> list_ascii_of_string s.

(** A string literal in memory: its characters and the terminating NUL. *)
Definition lit (s : string) : buffer := (Some <$> bytes s) ++ [Some 0].

Definition load (p : buffer) (i : nat) : result Z :=
  match p !! i with
  | Some (Some c) => Ok c
  | Some None => Fault Uninitialised
  | None => Fault OutOfBounds
  end.

Definition store (p : buffer) (i : nat) (c : Z) : result buffer :=
  if (i <? length p)%nat then Ok (<[i := Some c]> p) else Fault OutOfBounds.

(** An [int] used as an array index. *)
Definition index (i : Z) : result nat :=
  if i <? 0 then Fault OutOfBounds else Ok (Z.to_nat i).

(** Writes the bytes [l] to [p[i]], [p[i+1]], ... *)
Definition store_bytes (p : buffer) (i : nat) (l : list Z) : result buffer :=
  if (i + length l <=? length p)%nat
  then Ok (take i p ++ (Some <$> l) ++ drop (i + length l) p)
  else Fault OutOfBounds.

(** ** The C library functions the sketch calls *)

Module C.

(** The characters of the C string at [p], as [%s] reads them. *)
Fixpoint cstr (p : buffer) : result (list Z) :=
  match p with
  | [] => Fault OutOfBounds
  | None :: _ => Fault Uninitialised
  | Some c :: q => if c =? 0 then Ok [] else let* s := cstr q in Ok (c :: s)
  end.

Fixpoint strlen (p : buffer) : result nat :=
  match p with
  | [] => Fault OutOfBounds
  | None :: _ => Fault Uninitialised
  | Some c :: q => if c =? 0 then Ok 0%nat else let* n := strlen q in Ok (S n)
  end.

(** [strchr(p, c) != NULL] *)
Fixpoint strchr (p : buffer) (c : Z) : result bool :=
  match p with
  | [] => Fault OutOfBounds
  | None :: _ => Fault Uninitialised
  | Some x :: q =>
      if x =? c then Ok true else if x =? 0 then Ok false else strchr q c
  end.

(** [snprintf(dst, n, fmt, ...)], where [out] is the formatted text: at most
    [n - 1] characters are stored, then a NUL. *)
Definition snprintf (dst : buffer) (n : nat) (out : list Z) : result buffer :=
  match n with
  | O => Ok dst
  | S m => store_bytes dst 0 (take m out ++ [0])
  end.

(** [sprintf(dst, fmt, ...)] has no bound. *)
Definition sprintf (dst : buffer) (out : list Z) : result buffer :=
  store_bytes dst 0 (out ++ [0]).

Definition strcpy (dst src : buffer) : result buffer :=
  let* s := cstr src in store_bytes dst 0 (s ++ [0]).

Definition strcat (dst src : buffer) : result buffer :=
  let* n := strlen dst in
  let* s := cstr src in
  store_bytes dst n (s ++ [0]).

(** The [n] bytes [strncpy] stores: the characters of [src] up to its NUL or
    up to [n] of them, then NULs up to [n]; no NUL if [src] is longer. *)
Fixpoint strncpy_bytes (src : buffer) (n : nat) {struct n} : result (list Z) :=
  match n with
  | O => Ok []
  | S m =>
      match src with
      | [] => Fault OutOfBounds
      | None :: _ => Fault Uninitialised
      | Some c :: q =>
          if c =? 0 then Ok (replicate (S m) 0)
          else let* r := strncpy_bytes q m in Ok (c :: r)
      end
  end.

Definition strncpy (dst src : buffer) (n : nat) : result buffer :=
  let* l := strncpy_bytes src n in store_bytes dst 0 l.

Definition memcpy (dst src : buffer) (n : nat) : result buffer :=
  if (n <=? length src)%nat && (n <=? length dst)%nat
  then Ok (take n src ++ drop n dst)
  else Fault OutOfBounds.

Fixpoint strcmp (a b : buffer) : result Z :=
  match a, b with
  | Some x :: a', Some y :: b' =>
      if x =? y then (if x =? 0 then Ok 0 else strcmp a' b') else Ok (x - y)
  | None :: _, _ | _, None :: _ => Fault Uninitialised
  | _, _ => Fault OutOfBounds
  end.

Fixpoint strncmp (a b : buffer) (n : nat) {struct n} : result Z :=
  match n with
  | O => Ok 0
  | S m =>
      match a, b with
      | Some x :: a', Some y :: b' =>
          if x =? y then (if x =? 0 then Ok 0 else strncmp a' b' m)
          else Ok (x - y)
      | None :: _, _ | _, None :: _ => Fault Uninitialised
      | _, _ => Fault OutOfBounds
      end
  end.

End C.

(** ** FlipDot logic *)

(** [src[0] == a && src[1] == b]; [src[1]] is read only if the first test
    succeeds. *)
Definition pair_at (telegram : buffer) (src : nat) (a b : Z) : result bool :=
  let* c0 := load telegram src in
  if c0 =? a then (let* c1 := load telegram (src + 1) in Ok (c1 =? b))
  else Ok false.

(** The [while] loop of [process_special_characters]; [src] and [dst] are
    offsets into the one array [telegram]. *)
Fixpoint psc_loop (fuel : nat) (telegram : buffer) (src dst : nat)
  : result buffer :=
  match fuel with
  | O => Fault OutOfFuel
  | S fuel =>
      let* c := load telegram src in
      if c =? 0 then store telegram dst 0
      else
        let* t := pair_at telegram src 0xC3 0xA4 in
        if t then let* telegram := store telegram dst 123 (* '{' *) in
                  psc_loop fuel telegram (src + 2) (dst + 1) else
        let* t := pair_at telegram src 0xC3 0xB6 in
        if t then let* telegram := store telegram dst 124 (* '|' *) in
                  psc_loop fuel telegram (src + 2) (dst + 1) else
        let* t := pair_at telegram src 0xC3 0xBC in
        if t then let* telegram := store telegram dst 125 (* '}' *) in
                  psc_loop fuel telegram (src + 2) (dst + 1) else
        let* t := pair_at telegram src 0xC3 0x9F in
        if t then let* telegram := store telegram dst 126 (* '~' *) in
                  psc_loop fuel telegram (src + 2) (dst + 1) else
        let* t := pair_at telegram src 0xC3 0x84 in
        if t then let* telegram := store telegram dst 91 (* '[' *) in
                  psc_loop fuel telegram (src + 2) (dst + 1) else
        let* t := pair_at telegram src 0xC3 0x96 in
        if t then let* telegram := store telegram dst 92 (* backslash *) in
                  psc_loop fuel telegram (src + 2) (dst + 1) else
        let* t := pair_at telegram src 0xC3 0x9C in
        if t then let* telegram := store telegram dst 93 (* ']' *) in
                  psc_loop fuel telegram (src + 2) (dst + 1) else
        let* telegram := store telegram dst c in
        psc_loop fuel telegram (src + 1) (dst + 1)
  end.

(** Every iteration advances [src], and [src] stays inside the array, so
    [length telegram] iterations (and the final test) suffice. *)
Definition process_special_characters (telegram : buffer) : result buffer :=
  psc_loop (S (length telegram)) telegram 0 0.

(** The [for] loop of [compute_checksum]; [checksum] is a [uint8_t]. *)
Fixpoint checksum_loop (msg : buffer) (checksum : Z) : result Z :=
  match msg with
  | [] => Fault OutOfBounds
  | None :: _ => Fault Uninitialised
  | Some c :: rest =>
      if c =? 0 then Ok checksum
      else checksum_loop rest (Z.land (Z.lxor checksum c) 0xFF)
  end.

Definition compute_checksum (msg : buffer) : result Z :=
  checksum_loop msg 0x7F.

Definition wrap_telegram (telegram : buffer) : result buffer :=
  let* telegram := C.strcat telegram [Some 13; Some 0] in
  let* checksum := compute_checksum telegram in
  let* len := C.strlen telegram in
  let* telegram := store telegram len checksum in
  store telegram (len + 1) 0.

(** [const char vdvhex[] = "0123456789:;<=>?";] *)
Definition vdvhex : buffer := lit "0123456789:;<=>?".

Definition vdv_hex (value : Z) (output : buffer) : result buffer :=
  if (value <? 0) || (value >? 255) then C.strcpy output (lit "??")
  else if value >? 15 then
    let* i := index (Z.shiftr value 4) in
    let* hi := load vdvhex i in
    let* j := index (Z.land value 0x0F) in
    let* lo := load vdvhex j in
    C.sprintf output [hi; lo]
  else
    let* i := index value in
    let* c := load vdvhex i in
    C.sprintf output [c].

(** ** The outside world *)

Inductive level : Set := LOW | HIGH.

(** [#define lightingPin 28] *)
Definition lightingPin : Z := 28.

(** What the sketch can change outside its stack frames: the bytes printed on
    the debug port [Serial], the bytes written to the IBIS port [Serial1],
    the [digitalWrite] calls in order, and the global message buffer. *)
Record World : Type := mkWorld {
  Serial : list Z;
  Serial1 : list Z;
  gpio : list (Z * level);
  flipdotMessage_str : buffer
}.

Definition Serial_print (s : list Z) (w : World) : World :=
  mkWorld (Serial w ++ s) (Serial1 w) (gpio w) (flipdotMessage_str w).

Definition Serial_println (s : list Z) (w : World) : World :=
  Serial_print (s ++ [13; 10]) w.

(** [Serial1.write(buf, n)]: the first [n] bytes of [buf], whatever they are. *)
Fixpoint load_bytes (p : buffer) (n : nat) {struct n} : result (list Z) :=
  match n with
  | O => Ok []
  | S m =>
      match p with
      | [] => Fault OutOfBounds
      | None :: _ => Fault Uninitialised
      | Some c :: q => let* r := load_bytes q m in Ok (c :: r)
      end
  end.

Definition Serial1_write (buf : buffer) (n : nat) (w : World) : result World :=
  let* l := load_bytes buf n in
  Ok (mkWorld (Serial w) (Serial1 w ++ l) (gpio w) (flipdotMessage_str w)).

Definition digitalWrite (pin : Z) (val : level) (w : World) : World :=
  mkWorld (Serial w) (Serial1 w) (gpio w ++ [(pin, val)]) (flipdotMessage_str w).

Definition set_flipdotMessage_str (b : buffer) (w : World) : World :=
  mkWorld (Serial w) (Serial1 w) (gpio w) b.

(** The world at the end of [setup()], with the traces of the two serial
    ports started afresh: lighting written LOW once, the global buffer
    zero-initialised. *)
Definition initial_world : World :=
  mkWorld [] [] [(lightingPin, LOW)] (replicate 256 (Some 0)).

(** ** Sending *)

Definition hexdigit (n : Z) : Z :=
  nth (Z.to_nat n) (bytes "0123456789ABCDEF") 0.

(** ["%02X "] applied to a [uint8_t]. *)
Definition fmt_02X (v : Z) : list Z :=
  [hexdigit (Z.quot v 16); hexdigit (Z.rem v 16); 32].

(** The debug loop of [send_telegram]. *)
Fixpoint hex_loop (p : buffer) (w : World) : result World :=
  match p with
  | [] => Fault OutOfBounds
  | None :: _ => Fault Uninitialised
  | Some c :: q =>
      if c =? 0 then Ok w
      else
        let hex := uninit 4 in
        let* hex := C.sprintf hex (fmt_02X (Z.land c 0xFF)) in
        let* s := C.cstr hex in
        hex_loop q (Serial_print s w)
  end.

Definition send_telegram (telegram : buffer) (w : World) : result World :=
  let processed_telegram := uninit 256 in
  let* processed_telegram := C.strncpy processed_telegram telegram (256 - 1) in
  let* processed_telegram := process_special_characters processed_telegram in
  let* processed_telegram := wrap_telegram processed_telegram in
  let w := Serial_print (bytes "Sending HEX: ") w in
  let* w := hex_loop processed_telegram w in
  let w := Serial_println [] w in
  let w := Serial_print (bytes "Sending RAW: ") w in
  let* s := C.cstr processed_telegram in
  let w := Serial_println s w in
  let* n := C.strlen processed_telegram in
  Serial1_write processed_telegram n w.

(** ** DS021t *)

(** [for (int i = len; i < usable_bytes; i++) message[i] = ' ';] run for its
    [n] = [usable_bytes - len] iterations. *)
Fixpoint pad_loop (n : nat) (message : buffer) (i : Z) : result buffer :=
  match n with
  | O => Ok message
  | S n =>
      let* k := index i in
      let* message := store message k 32 in
      pad_loop n message (i + 1)
  end.

(** The first statement of [DS021t]: [message] after the [snprintf]. *)
Definition DS021t_message (text : buffer) : result buffer :=
  let message := uninit 256 in
  let* has_newline := C.strchr text 10 in
  let* s := C.cstr text in
  if has_newline then C.snprintf message 256 (s ++ [10; 10])
  else C.snprintf message 256 (s ++ [10; 10; 10]).

Definition DS021t_num_blocks (len : Z) : Z :=
  let total_len_with_padding := len + 2 in
  Z.quot (total_len_with_padding + 15) 16.

Definition DS021t (address : Z) (text : buffer) (w : World) : result World :=
  let address_hex := uninit 3 in
  let num_blocks_hex := uninit 3 in
  let telegram := uninit 256 in
  let* message := DS021t_message text in
  let* n := C.strlen message in
  let len := Z.of_nat n in
  let num_blocks := DS021t_num_blocks len in
  let usable_bytes := num_blocks * 16 - 2 in
  let* message := pad_loop (Z.to_nat (usable_bytes - len)) message len in
  let* k := index usable_bytes in
  let* message := store message k 0 in
  let* address_hex := vdv_hex address address_hex in
  let* num_blocks_hex := vdv_hex num_blocks num_blocks_hex in
  let* a := C.cstr address_hex in
  let* b := C.cstr num_blocks_hex in
  let* m := C.cstr message in
  let* telegram :=
    C.snprintf telegram 256 (bytes "aA" ++ a ++ b ++ bytes "A0" ++ m) in
  send_telegram telegram w.

(** ** MQTT handling *)

Definition topic_message : buffer := lit "home/flipdot/message".
Definition topic_lighting : buffer := lit "home/flipdot/lighting".

(** [length] is the callback's third argument ([unsigned int]). *)
Definition mqtt_callback (topic payload : buffer) (length : nat) (w : World)
  : result World :=
  let buffer := uninit 256 in
  let* buffer := C.memcpy buffer payload (min length (256 - 1)) in
  let* buffer := store buffer (min length (256 - 1)) 0 in
  let* c := C.strcmp topic topic_message in
  if c =? 0 then
    let copy_len := min length (256 - 1) in
    let* g := C.memcpy (flipdotMessage_str w) payload copy_len in
    let* g := store g copy_len 0 in
    let w := set_flipdotMessage_str g w in
    let display := uninit 256 in
    let* s := C.cstr (flipdotMessage_str w) in
    let* display := C.snprintf display 256 s in
    DS021t 2 display w
  else
    let* c := C.strcmp topic topic_lighting in
    if c =? 0 then
      let* c := C.strncmp buffer (lit "On") 2 in
      if c =? 0 then Ok (digitalWrite lightingPin HIGH w)
      else
        let* c := C.strncmp buffer (lit "Off") 3 in
        if c =? 0 then Ok (digitalWrite lightingPin LOW w)
        else Ok w
    else Ok w.

(** * The components as the specification words them *)

(** ** CharsetNormalizer: the table of 2-byte sequences [C3 xx] *)

Definition CharsetNormalizer_table : list (Z * Z) :=
  [ (0xA4, 123)   (* ä -> { *)
  ; (0xB6, 124)   (* ö -> | *)
  ; (0xBC, 125)   (* ü -> } *)
  ; (0x9F, 126)   (* ß -> ~ *)
  ; (0x84, 91)    (* Ä -> [ *)
  ; (0x96, 92)    (* Ö -> \ *)
  ; (0x9C, 93) ]. (* Ü -> ] *)

Fixpoint assoc (k : Z) (t : list (Z * Z)) : option Z :=
  match t with
  | [] => None
  | (k', v) :: t => if k =? k' then Some v else assoc k t
  end.

(** The output byte for the continuation byte [d] after a lead byte [C3]. *)
Definition replacement (d : Z) : option Z := assoc d CharsetNormalizer_table.

(** Left to right: a mapped pair becomes its output byte, any other byte is
    copied. *)
Fixpoint CharsetNormalizer (s : list Z) : list Z :=
  match s with
  | [] => []
  | c :: rest =>
      match rest with
      | [] => [c]
      | d :: rest' =>
          if c =? 0xC3 then
            match replacement d with
            | Some r => r :: CharsetNormalizer rest'
            | None => c :: CharsetNormalizer rest
            end
          else c :: CharsetNormalizer rest
      end
  end.

(** ** ChecksumComputer: XOR fold from [0x7F] *)

Definition ChecksumComputer (l : list Z) : Z := fold_left Z.lxor l 0x7F.

(** ** VdvHexCodec *)

Definition vdv_alphabet : list Z := bytes "0123456789:;<=>?".

Definition VdvHexCodec (value : Z) : list Z :=
  if (0 <=? value) && (value <=? 15) then [nth (Z.to_nat value) vdv_alphabet 0]
  else if (16 <=? value) && (value <=? 255) then
    [nth (Z.to_nat (value / 16)) vdv_alphabet 0;
     nth (Z.to_nat (value mod 16)) vdv_alphabet 0]
  else bytes "??".

(** ** Bytes and C strings *)

Definition is_byte (c : Z) : Prop := 0 <= c < 256.

(** A C string: no NUL inside. *)
Definition nonzero (s : list Z) : Prop := Forall (fun c => c <> 0) s.

(** The accumulator of the loop, a [uint8_t]. *)
Definition xor8 (checksum c : Z) : Z := Z.land (Z.lxor checksum c) 0xFF.

(** The checksum byte of a telegram body: the low 8 bits of the XOR fold,
    which for bytes is the XOR fold itself. *)
Definition checksum_byte (s : list Z) : Z := Z.land (ChecksumComputer s) 0xFF.

(** ** DisplayEncoder: the steps of section 4.5 on byte strings *)

(** Step 1: two line breaks after a text with a line break, else three. *)
Definition line_breaks (t : list Z) : list Z :=
  if existsb (Z.eqb 10) t then [10; 10] else [10; 10; 10].

(** Steps 4 to 6: the message padded with spaces to [numBlocks*16 - 2]. *)
Definition padded_message (m : list Z) : list Z :=
  let len := Z.of_nat (length m) in
  m ++ replicate (Z.to_nat (DS021t_num_blocks len * 16 - 2 - len)) 32.

(** Step 8, the payload handed to the framer: type marker, address, block
    count, sub-type marker, message. *)
Definition DS021t_payload (address : Z) (m : list Z) : list Z :=
  bytes "aA" ++ VdvHexCodec address
    ++ VdvHexCodec (DS021t_num_blocks (Z.of_nat (length m)))
    ++ bytes "A0" ++ padded_message m.

(** TelegramFramer: payload, carriage return, checksum byte. *)
Definition TelegramFramer (payload : list Z) : list Z :=
  payload ++ [13; checksum_byte (payload ++ [13])].

(** What [strlen] sees of a framed telegram: all of it, unless the checksum
    byte is NUL. *)
Definition upto_nul (payload : list Z) : list Z :=
  if checksum_byte (payload ++ [13]) =? 0 then payload ++ [13]
  else TelegramFramer payload.

(** No lead byte [C3] at all. *)
Definition no_lead (s : list Z) : Prop := Forall (fun c => c <> 0xC3) s.

(** [d] is one of the seven mapped continuation bytes. *)
Definition mapped (d : Z) : bool :=
  match replacement d with Some _ => true | None => false end.

(** Some lead byte [C3] is followed by a mapped continuation byte. *)
Fixpoint has_mapped_pair (t : list Z) : bool :=
  match t with
  | [] => false
  | c :: rest =>
      match rest with
      | [] => false
      | d :: _ =>
          ((c =? 0xC3) && mapped d) || has_mapped_pair rest
      end
  end.

(** BlockCount as section 3 of the specification defines it. *)
Definition section3_BlockCount (normalized : list Z) : Z :=
  (Z.of_nat (length normalized) + 3 + 2 + 15) / 16.

(** The wire format of section 6 with a payload of whole blocks after the
    sub-type marker. *)
Definition payload_block_aligned (address : Z) (sent : list Z) : Prop :=
  exists (blocks payload : list Z) (checksum : Z),
    sent = bytes "aA" ++ VdvHexCodec address ++ blocks ++ bytes "A0"
             ++ payload ++ [13; checksum]
    /\ (1 <= length blocks <= 2)%nat
    /\ Z.of_nat (length payload) mod 16 = 0.

(** ** Sample texts *)

(** 253 bytes without a line break. *)
Definition text_253 : list Z := replicate 253 97.

(** 12 bytes with an embedded line break. *)
Definition text_two_lines : list Z := bytes "aaaaaa" ++ [10] ++ bytes "aaaaa".

(** The two bytes of the letter u-umlaut and ten more: 12 bytes, 11 once
    normalized. *)
Definition text_umlaut : list Z := [0xC3; 0xBC] ++ bytes "aaaaaaaaaa".

(** The DS021t payload for address 2 and the one-character text ["*"]. *)
Definition star_payload : list Z :=
  bytes "aA21A0*" ++ [10; 10; 10] ++ replicate 10 32.

(** ** Reading back *)

(** A VDV hex field read as base-16 digits [c - '0']. *)
Definition vdv_decode (s : list Z) : Z :=
  fold_left (fun acc c => acc * 16 + (c - 48)) s 0.

(** The cells [vdv_hex] needs in [output]: the characters and the NUL. *)
Definition vdv_hex_room (value : Z) : nat :=
  if (0 <=? value) && (value <=? 15) then 2%nat else 3%nat.

(** The world after [DS021t(2, "Hello")] in the initial world. *)
Definition after_hello : World :=
  match DS021t 2 (lit "Hello") initial_world with
  | Ok w => w
  | Fault _ => initial_world
  end.

(** The bytes in front of the first NUL. *)
Fixpoint until_nul (s : list Z) : list Z :=
  match s with
  | [] => []
  | c :: r => if c =? 0 then [] else c :: until_nul r
  end.

(** What every callback finds and leaves: the global buffer has its 256
    cells and holds a terminated string. *)
Definition world_ok (w : World) : Prop :=
  length (flipdotMessage_str w) = 256%nat
  /\ exists s, C.cstr (flipdotMessage_str w) = Ok s.

(** The hex line of the debug output: ["%02X "] for each byte. *)
Definition hexdump (s : list Z) : list Z :=
  concat ((fun c => fmt_02X (Z.land c 0xFF)) <$> s).

(** * Properties *)

(** ** The result monad *)

Lemma bind_Ok {A B : Type} (r : result A) (k : A -> result B) (b : B) :
  bind r k = Ok b -> exists a, r = Ok a /\ k a = Ok b.
Proof. destruct r as [a|f]; simpl; [eauto | discriminate]. Qed.

(** ** C strings in memory *)

Section Memory.
Local Open Scope nat_scope.

Lemma cstr_holds (s : list Z) (rest : buffer) :
  nonzero s -> C.cstr ((Some <$> s) ++ Some 0%Z :: rest) = Ok s.
Proof.
  induction 1 as [|c s Hc _ IH]; [reflexivity|].
  rewrite fmap_cons. cbn [app C.cstr].
  apply Z.eqb_neq in Hc. rewrite Hc, IH. reflexivity.
Qed.

Lemma cstr_inv (p : buffer) (s : list Z) :
  C.cstr p = Ok s ->
  nonzero s /\ p = (Some <$> s) ++ Some 0%Z :: drop (S (length s)) p.
Proof.
  revert s. induction p as [|[c|] q IH]; simpl; intros s H; try discriminate.
  destruct (Z.eqb_spec c 0) as [->|Hc].
  - injection H as <-. split; [constructor | now rewrite drop_0].
  - apply bind_Ok in H as (s' & Hq & [= <-]).
    destruct (IH _ Hq) as [Hnz Hp]. split; [now constructor|].
    rewrite fmap_cons. cbn [length drop app]. f_equal. exact Hp.
Qed.

Lemma strlen_cstr (p : buffer) :
  C.strlen p = let* s := C.cstr p in Ok (length s).
Proof.
  induction p as [|[c|] q IH]; simpl; try reflexivity.
  destruct (c =? 0)%Z; [reflexivity|].
  rewrite IH. now destruct (C.cstr q).
Qed.

Lemma strlen_holds (s : list Z) (rest : buffer) :
  nonzero s -> C.strlen ((Some <$> s) ++ Some 0%Z :: rest) = Ok (length s).
Proof. intros H. now rewrite strlen_cstr, cstr_holds. Qed.

Lemma load_holds_nul (p : buffer) (n : nat) (s : list Z) (rest : buffer) :
  drop n p = (Some <$> s) ++ Some 0%Z :: rest ->
  load p (n + length s) = Ok 0%Z.
Proof.
  intros H. unfold load. rewrite <- lookup_drop, H.
  rewrite lookup_app_r by now rewrite length_fmap.
  now rewrite length_fmap, Nat.sub_diag.
Qed.

Lemma load_holds (p : buffer) (n i : nat) (s : list Z) (rest : buffer) (c : Z) :
  drop n p = (Some <$> s) ++ Some 0%Z :: rest ->
  s !! i = Some c ->
  load p (n + i) = Ok c.
Proof.
  intros H Hi. unfold load. rewrite <- lookup_drop, H.
  rewrite lookup_app_l by (rewrite length_fmap; eapply lookup_lt_Some, Hi).
  now rewrite list_lookup_fmap, Hi.
Qed.

Lemma holds_length (p : buffer) (n : nat) (s : list Z) (rest : buffer) :
  drop n p = (Some <$> s) ++ Some 0%Z :: rest ->
  n + length s < length p.
Proof.
  intros H. apply (f_equal length) in H.
  rewrite length_drop, length_app, length_fmap in H. simpl in H. lia.
Qed.

Lemma store_Ok (p : buffer) (i : nat) (c : Z) :
  i < length p -> store p i c = Ok (<[i := Some c]> p).
Proof. intros H. unfold store. apply Nat.ltb_lt in H. now rewrite H. Qed.

End Memory.

(** ** CharsetNormalizer *)

Lemma replacement_Some (d r : Z) :
  replacement d = Some r ->
  (d, r) ∈ CharsetNormalizer_table /\ r <> 0 /\ r <> 0xC3 /\ replacement r = None.
Proof.
  unfold replacement, CharsetNormalizer_table. cbn [assoc].
  repeat match goal with
         | |- context [d =? ?k] =>
             destruct (Z.eqb_spec d k) as [->|_];
             [simpl; intros [= <-]; repeat split; try discriminate;
              repeat first [apply list_elem_of_here | apply list_elem_of_further]|]
         end.
  discriminate.
Qed.

Lemma replacement_nul : replacement 0 = None.
Proof. reflexivity. Qed.

Lemma CharsetNormalizer_other (c : Z) (s : list Z) :
  c <> 0xC3 -> CharsetNormalizer (c :: s) = c :: CharsetNormalizer s.
Proof.
  intros H. apply Z.eqb_neq in H. destruct s; cbn [CharsetNormalizer]; [reflexivity|].
  now rewrite H.
Qed.

Lemma CharsetNormalizer_mapped (d r : Z) (s : list Z) :
  replacement d = Some r ->
  CharsetNormalizer (0xC3 :: d :: s) = r :: CharsetNormalizer s.
Proof. intros H. cbn [CharsetNormalizer]. now rewrite H. Qed.

Lemma CharsetNormalizer_lone (c d : Z) (s : list Z) :
  replacement d = None ->
  CharsetNormalizer (c :: d :: s) = c :: CharsetNormalizer (d :: s).
Proof.
  intros H. cbn [CharsetNormalizer]. rewrite H. now destruct (c =? 0xC3).
Qed.

(** Induction along the recursion of [CharsetNormalizer]. *)
Lemma CharsetNormalizer_ind (P : list Z -> Prop) :
  P [] ->
  (forall c, P [c]) ->
  (forall d r s, replacement d = Some r -> P s -> P (0xC3 :: d :: s)) ->
  (forall c d s, c <> 0xC3 \/ replacement d = None ->
                 P (d :: s) -> P (c :: d :: s)) ->
  forall s, P s.
Proof.
  intros Hnil Hone Hmap Hcopy s.
  assert (H : P s /\ forall c, P (c :: s)); [|apply H].
  induction s as [|d s [IH1 IH2]]; [split; [exact Hnil | exact Hone]|].
  split; [apply IH2|]. intros c.
  destruct (Z.eq_dec c 0xC3) as [->|Hc].
  - destruct (replacement d) as [r|] eqn:Hr.
    + now apply (Hmap d r).
    + apply Hcopy; [now right | apply IH2].
  - apply Hcopy; [now left | apply IH2].
Qed.

Lemma CharsetNormalizer_length (s : list Z) :
  (length (CharsetNormalizer s) <= length s)%nat.
Proof.
  induction s as [| c | d r s Hr IH | c d s H IH] using CharsetNormalizer_ind.
  - reflexivity.
  - reflexivity.
  - rewrite (CharsetNormalizer_mapped d r) by exact Hr. simpl in *. lia.
  - assert (E : CharsetNormalizer (c :: d :: s) = c :: CharsetNormalizer (d :: s)).
    { destruct H; [now apply CharsetNormalizer_other
                  | now apply CharsetNormalizer_lone]. }
    rewrite E. simpl in *. lia.
Qed.

Lemma CharsetNormalizer_nonzero (s : list Z) :
  nonzero s -> nonzero (CharsetNormalizer s).
Proof.
  unfold nonzero.
  induction s as [| c | d r s Hr IH | c d s H IH] using CharsetNormalizer_ind;
    intros Hs.
  - constructor.
  - exact Hs.
  - rewrite (CharsetNormalizer_mapped d r) by exact Hr.
    inversion Hs as [|? ? _ Hs']; subst. inversion Hs'; subst.
    constructor; [now apply replacement_Some in Hr | now apply IH].
  - assert (E : CharsetNormalizer (c :: d :: s) = c :: CharsetNormalizer (d :: s)).
    { destruct H; [now apply CharsetNormalizer_other
                  | now apply CharsetNormalizer_lone]. }
    rewrite E. inversion Hs; subst. constructor; [assumption | now apply IH].
Qed.

(** The first output byte after a copied lead byte is never a mapped
    continuation byte. *)
Lemma CharsetNormalizer_head (d : Z) (s : list Z) :
  replacement d = None ->
  exists h t, CharsetNormalizer (d :: s) = h :: t /\ replacement h = None.
Proof.
  intros Hd. destruct s as [|e s]; [now exists d, []|].
  cbn [CharsetNormalizer]. destruct (d =? 0xC3); [|eauto].
  destruct (replacement e) as [r|] eqn:Hr; [|eauto].
  exists r, (CharsetNormalizer s). split; [reflexivity|].
  now apply replacement_Some in Hr.
Qed.

Lemma CharsetNormalizer_idempotent (s : list Z) :
  CharsetNormalizer (CharsetNormalizer s) = CharsetNormalizer s.
Proof.
  induction s as [| c | d r s Hr IH | c d s H IH] using CharsetNormalizer_ind.
  - reflexivity.
  - reflexivity.
  - rewrite (CharsetNormalizer_mapped d r) by exact Hr.
    rewrite CharsetNormalizer_other by now apply replacement_Some in Hr.
    now rewrite IH.
  - destruct H as [Hc|Hd].
    + rewrite !(CharsetNormalizer_other c) by exact Hc. now rewrite IH.
    + rewrite (CharsetNormalizer_lone c d) by exact Hd.
      destruct (CharsetNormalizer_head d s Hd) as (h & t & E & Hh).
      rewrite E in *. rewrite (CharsetNormalizer_lone c h) by exact Hh.
      now rewrite IH.
Qed.

(** ** process_special_characters refines CharsetNormalizer *)

Section InPlace.
Local Open Scope nat_scope.

(** One iteration, with the seven tests of the source folded into the table. *)
Lemma psc_loop_S (fuel : nat) (telegram : buffer) (src dst : nat) :
  psc_loop (S fuel) telegram src dst =
  let* c := load telegram src in
  if (c =? 0)%Z then store telegram dst 0%Z
  else if (c =? 0xC3)%Z then
    let* d := load telegram (src + 1) in
    match replacement d with
    | Some r => let* b := store telegram dst r in
                psc_loop fuel b (src + 2) (dst + 1)
    | None => let* b := store telegram dst c in
              psc_loop fuel b (src + 1) (dst + 1)
    end
  else let* b := store telegram dst c in psc_loop fuel b (src + 1) (dst + 1).
Proof.
  cbn [psc_loop]. unfold pair_at.
  destruct (load telegram src) as [c|f]; [|reflexivity]. cbn [bind].
  destruct (c =? 0)%Z; [reflexivity|].
  destruct (c =? 0xC3)%Z; [|reflexivity].
  destruct (load telegram (src + 1)) as [d|f]; [|reflexivity]. cbn [bind].
  unfold replacement, CharsetNormalizer_table. cbn [assoc].
  repeat match goal with
         | |- context [(d =? ?k)%Z] => destruct (d =? k)%Z; [reflexivity|]
         end.
  reflexivity.
Qed.

Lemma holds_advance (p : buffer) (n : nat) (c : Z) (s : list Z) (rest : buffer) :
  drop n p = (Some <$> (c :: s)) ++ Some 0%Z :: rest ->
  drop (n + 1) p = (Some <$> s) ++ Some 0%Z :: rest.
Proof. intros H. now rewrite <- drop_drop, H. Qed.

Lemma take_S_insert (p : buffer) (i : nat) (v : cell) :
  i < length p -> take (i + 1) (<[i := v]> p) = take i p ++ [v].
Proof.
  intros H. rewrite insert_take_drop by exact H.
  rewrite cons_middle, app_assoc. apply take_app_length'.
  rewrite length_app, length_take_le by lia. reflexivity.
Qed.

(** Writing [v] at [dst] and then the rest from [dst + 1] on. *)
Lemma write_frame (p : buffer) (dst : nat) (v : Z) (out : list Z) :
  dst < length p ->
  take (dst + 1) (<[dst := Some v]> p) ++ (Some <$> out) ++
    Some 0%Z :: drop (S (dst + 1 + length out)) (<[dst := Some v]> p)
  = take dst p ++ (Some <$> v :: out) ++
    Some 0%Z :: drop (S (dst + length (v :: out))) p.
Proof.
  intros H. rewrite take_S_insert by exact H.
  rewrite drop_insert_lt by lia.
  rewrite fmap_cons, <- app_assoc. cbn [app length].
  now replace (dst + 1 + length out) with (dst + S (length out)) by lia.
Qed.

Lemma psc_loop_spec (fuel : nat) :
  forall (telegram : buffer) (src dst : nat) (s : list Z) (rest : buffer),
    drop src telegram = (Some <$> s) ++ Some 0%Z :: rest ->
    nonzero s -> dst <= src -> length s < fuel ->
    psc_loop fuel telegram src dst =
    Ok (take dst telegram ++ (Some <$> CharsetNormalizer s) ++
        Some 0%Z :: drop (S (dst + length (CharsetNormalizer s))) telegram).
Proof.
  induction fuel as [|fuel IH]; intros p src dst s rest Hp Hs Hd Hf; [lia|].
  pose proof (holds_length _ _ _ _ Hp) as Hlen.
  rewrite psc_loop_S. destruct s as [|c s].
  - pose proof (load_holds_nul _ _ _ _ Hp) as L. cbn [length] in L.
    rewrite Nat.add_0_r in L. rewrite L. cbn [bind]. cbn.
    rewrite store_Ok by lia. rewrite Nat.add_0_r.
    now rewrite insert_take_drop by lia.
  - pose proof (load_holds _ _ 0 _ _ c Hp eq_refl) as L.
    rewrite Nat.add_0_r in L. rewrite L. cbn [bind].
    inversion Hs as [|? ? Hc Hs']; subst.
    apply Z.eqb_neq in Hc as Hc'. rewrite Hc'.
    pose proof (holds_advance _ _ _ _ _ Hp) as Hp1.
    cbn [length] in Hf, Hlen.
    assert (Hcopy : (let* b := store p dst c in psc_loop fuel b (src + 1) (dst + 1))
                    = Ok (take dst p ++ (Some <$> c :: CharsetNormalizer s) ++
                          Some 0%Z :: drop (S (dst + length (c :: CharsetNormalizer s))) p)).
    { rewrite store_Ok by lia. cbn [bind].
      rewrite (IH _ (src + 1) (dst + 1) s rest); try assumption; try lia.
      - f_equal. apply write_frame. lia.
      - rewrite drop_insert_lt by lia. exact Hp1. }
    destruct (Z.eqb_spec c 0xC3) as [->|Hne].
    + destruct s as [|d s].
      * pose proof (load_holds_nul _ _ _ _ Hp1) as L1. cbn [length] in L1.
        rewrite Nat.add_0_r in L1. rewrite L1. cbn [bind].
        rewrite replacement_nul. exact Hcopy.
      * pose proof (load_holds _ _ 0 _ _ d Hp1 eq_refl) as L1.
        rewrite Nat.add_0_r in L1. rewrite L1. cbn [bind].
        destruct (replacement d) as [r|] eqn:Hr.
        -- rewrite (CharsetNormalizer_mapped d r) by exact Hr.
           rewrite store_Ok by lia. cbn [bind].
           pose proof (holds_advance _ _ _ _ _ Hp1) as Hp2.
           inversion Hs'; subst. cbn [length] in Hf, Hlen.
           rewrite (IH _ (src + 2) (dst + 1) s rest); try assumption; try lia.
           ++ f_equal. apply write_frame. lia.
           ++ rewrite drop_insert_lt by lia.
              replace (src + 2) with (src + 1 + 1) by lia. exact Hp2.
        -- rewrite (CharsetNormalizer_lone _ d) by exact Hr.
           exact Hcopy.
    + rewrite (CharsetNormalizer_other c) by exact Hne.
      exact Hcopy.
Qed.

(** The contents of the array after the call, for any C string in it. *)
Lemma process_special_characters_spec (telegram : buffer) (s : list Z) :
  C.cstr telegram = Ok s ->
  process_special_characters telegram =
  Ok ((Some <$> CharsetNormalizer s) ++
      Some 0%Z :: drop (S (length (CharsetNormalizer s))) telegram).
Proof.
  intros H. apply cstr_inv in H as [Hs Hp].
  unfold process_special_characters.
  rewrite (psc_loop_spec _ telegram 0 0 s (drop (S (length s)) telegram)).
  - reflexivity.
  - exact Hp.
  - exact Hs.
  - lia.
  - apply (f_equal length) in Hp.
    rewrite length_app, length_fmap in Hp. simpl in Hp. lia.
Qed.

End InPlace.

(** ** Writing into arrays *)

Section Writes.
Local Open Scope nat_scope.

Lemma store_bytes_0 (p : buffer) (l : list Z) :
  length l <= length p ->
  store_bytes p 0 l = Ok ((Some <$> l) ++ drop (length l) p).
Proof.
  intros H. unfold store_bytes. cbn [Nat.add].
  apply Nat.leb_le in H. now rewrite H.
Qed.

(** A string and its NUL written at the start of [p]. *)
Lemma store_string_0 (p : buffer) (s : list Z) :
  length s < length p ->
  store_bytes p 0 (s ++ [0%Z]) = Ok ((Some <$> s) ++ Some 0%Z :: drop (S (length s)) p).
Proof.
  intros H. rewrite store_bytes_0 by (rewrite length_app; simpl; lia).
  rewrite fmap_app, <- app_assoc, length_app. cbn [length fmap list_fmap app].
  now rewrite Nat.add_1_r.
Qed.

Lemma drop_holds (s : list Z) (c : cell) (rest : buffer) :
  drop (S (length s)) ((Some <$> s) ++ c :: rest) = rest.
Proof.
  rewrite cons_middle, app_assoc. apply drop_app_length'.
  rewrite length_app, length_fmap. simpl. lia.
Qed.

Lemma insert_holds (s : list Z) (v c : cell) (rest : buffer) :
  <[length s := v]> ((Some <$> s) ++ c :: rest) = (Some <$> s) ++ v :: rest.
Proof.
  rewrite insert_app_r_alt by now rewrite length_fmap.
  now rewrite length_fmap, Nat.sub_diag.
Qed.

Lemma insert_holds_S (s : list Z) (v c d : cell) (rest : buffer) :
  <[length s + 1 := v]> ((Some <$> s) ++ c :: d :: rest)
  = (Some <$> s) ++ c :: v :: rest.
Proof.
  rewrite insert_app_r_alt by (rewrite length_fmap; lia).
  rewrite length_fmap. now replace (length s + 1 - length s) with 1 by lia.
Qed.

Lemma holds_total (s : list Z) (rest : buffer) :
  length ((Some <$> s) ++ rest) = length s + length rest.
Proof. now rewrite length_app, length_fmap. Qed.

End Writes.

(** ** vdv_hex *)

Lemma vdv_alphabet_nth (i : Z) :
  0 <= i <= 15 -> nth (Z.to_nat i) vdv_alphabet 0 = 48 + i.
Proof.
  intros H.
  assert (E : exists n : nat, (n < 16)%nat /\ i = Z.of_nat n)
    by (exists (Z.to_nat i); lia).
  destruct E as (n & Hn & ->). rewrite Nat2Z.id.
  do 16 (destruct n as [|n]; [reflexivity|]). lia.
Qed.

Lemma load_vdvhex (i : Z) :
  0 <= i <= 15 -> load vdvhex (Z.to_nat i) = Ok (48 + i).
Proof.
  intros H.
  assert (E : exists n : nat, (n < 16)%nat /\ i = Z.of_nat n)
    by (exists (Z.to_nat i); lia).
  destruct E as (n & Hn & ->). rewrite Nat2Z.id.
  do 16 (destruct n as [|n]; [reflexivity|]). lia.
Qed.

Lemma VdvHexCodec_nonzero (value : Z) : nonzero (VdvHexCodec value).
Proof.
  unfold VdvHexCodec.
  destruct (Z.leb_spec 0 value), (Z.leb_spec value 15),
    (Z.leb_spec 16 value), (Z.leb_spec value 255); cbn [andb];
    try (repeat constructor; discriminate); try lia.
  - rewrite vdv_alphabet_nth by lia. repeat constructor. lia.
  - pose proof (Z.div_pos value 16 ltac:(lia) ltac:(lia)).
    assert (value / 16 < 16) by (apply Z.div_lt_upper_bound; lia).
    pose proof (Z.mod_pos_bound value 16 ltac:(lia)).
    rewrite !vdv_alphabet_nth by lia. repeat constructor; lia.
Qed.

Lemma VdvHexCodec_length (value : Z) :
  (1 <= length (VdvHexCodec value) <= 2)%nat.
Proof.
  unfold VdvHexCodec.
  destruct ((0 <=? value) && (value <=? 15)); [simpl; lia|].
  destruct ((16 <=? value) && (value <=? 255)); simpl; lia.
Qed.

(** What [vdv_hex] leaves in [output]. *)
Lemma vdv_hex_spec (value : Z) (output : buffer) :
  (3 <= length output)%nat ->
  vdv_hex value output =
  Ok ((Some <$> VdvHexCodec value) ++
      Some 0 :: drop (S (length (VdvHexCodec value))) output).
Proof.
  intros Hout. unfold vdv_hex, VdvHexCodec.
  destruct (Z.ltb_spec value 0) as [Hneg|Hnn]; cbn [orb].
  { replace ((0 <=? value) && (value <=? 15)) with false by lia.
    replace ((16 <=? value) && (value <=? 255)) with false by lia.
    unfold C.strcpy. cbn [lit bytes C.cstr bind].
    apply (store_string_0 output (bytes "??")). simpl. lia. }
  destruct (Z.gtb_spec value 255) as [Hbig|Hle].
  { replace ((0 <=? value) && (value <=? 15)) with false by lia.
    replace ((16 <=? value) && (value <=? 255)) with false by lia.
    apply (store_string_0 output (bytes "??")). simpl. lia. }
  destruct (Z.gtb_spec value 15) as [Hhi|Hlo].
  - replace ((0 <=? value) && (value <=? 15)) with false by lia.
    replace ((16 <=? value) && (value <=? 255)) with true by lia.
    rewrite Z.shiftr_div_pow2 by lia.
    change 0x0F with (Z.ones 4). rewrite Z.land_ones by lia.
    change (2 ^ 4) with 16.
    pose proof (Z.div_pos value 16 ltac:(lia) ltac:(lia)).
    assert (value / 16 < 16) by (apply Z.div_lt_upper_bound; lia).
    pose proof (Z.mod_pos_bound value 16 ltac:(lia)).
    unfold index.
    replace (value / 16 <? 0) with false by lia.
    replace (value mod 16 <? 0) with false by lia. cbn [bind].
    rewrite !load_vdvhex by lia. cbn [bind].
    rewrite !vdv_alphabet_nth by lia.
    apply (store_string_0 output [_; _]). simpl. lia.
  - replace ((0 <=? value) && (value <=? 15)) with true by lia.
    unfold index. replace (value <? 0) with false by lia. cbn [bind].
    rewrite load_vdvhex by lia. cbn [bind].
    rewrite vdv_alphabet_nth by lia.
    apply (store_string_0 output [_]). simpl. lia.
Qed.

(** ** compute_checksum and wrap_telegram *)

Lemma land_lxor_distr (a b m : Z) :
  Z.land (Z.lxor a b) m = Z.lxor (Z.land a m) (Z.land b m).
Proof.
  apply Z.bits_inj'. intros n _.
  rewrite !Z.lxor_spec, !Z.land_spec, Z.lxor_spec.
  now destruct (Z.testbit a n), (Z.testbit b n), (Z.testbit m n).
Qed.

Lemma is_byte_land (c : Z) : is_byte c <-> Z.land c 0xFF = c.
Proof.
  change 0xFF with (Z.ones 8). rewrite Z.land_ones by lia.
  change (2 ^ 8) with 256. unfold is_byte. split; intros H.
  - now apply Z.mod_small.
  - rewrite <- H. apply Z.mod_pos_bound. lia.
Qed.

Lemma is_byte_lxor (a b : Z) : is_byte a -> is_byte b -> is_byte (Z.lxor a b).
Proof.
  rewrite !is_byte_land. intros Ha Hb.
  now rewrite land_lxor_distr, Ha, Hb.
Qed.

Lemma xor8_fold (s : list Z) (a : Z) :
  fold_left xor8 s (Z.land a 0xFF) = Z.land (fold_left Z.lxor s a) 0xFF.
Proof.
  revert a. induction s as [|c s IH]; intros a; [reflexivity|].
  cbn [fold_left]. rewrite <- IH. f_equal. unfold xor8.
  rewrite !land_lxor_distr. f_equal.
  now rewrite <- Z.land_assoc, Z.land_diag.
Qed.

Lemma fold_lxor_byte (s : list Z) (a : Z) :
  is_byte a -> Forall is_byte s -> is_byte (fold_left Z.lxor s a).
Proof.
  intros Ha Hs. revert a Ha.
  induction Hs as [|c s Hc _ IH]; intros a Ha; [exact Ha|].
  cbn [fold_left]. apply IH. now apply is_byte_lxor.
Qed.

Lemma checksum_loop_holds (s : list Z) (rest : buffer) (checksum : Z) :
  nonzero s ->
  checksum_loop ((Some <$> s) ++ Some 0 :: rest) checksum =
  Ok (fold_left xor8 s checksum).
Proof.
  intros Hs. revert checksum.
  induction Hs as [|c s Hc _ IH]; intros a; [reflexivity|].
  rewrite fmap_cons. cbn [app checksum_loop fold_left].
  apply Z.eqb_neq in Hc. rewrite Hc. apply IH.
Qed.

Lemma checksum_byte_bytes (s : list Z) :
  Forall is_byte s -> checksum_byte s = ChecksumComputer s.
Proof.
  intros H. apply is_byte_land. apply fold_lxor_byte; [|exact H].
  unfold is_byte. lia.
Qed.

Lemma compute_checksum_holds (s : list Z) (rest : buffer) :
  nonzero s ->
  compute_checksum ((Some <$> s) ++ Some 0 :: rest) = Ok (checksum_byte s).
Proof.
  intros H. unfold compute_checksum. rewrite checksum_loop_holds by exact H.
  change 0x7F with (Z.land 0x7F 0xFF) at 1. now rewrite xor8_fold.
Qed.

Section Framing.
Local Open Scope nat_scope.

Lemma nonzero_app (a b : list Z) : nonzero a -> nonzero b -> nonzero (a ++ b).
Proof. unfold nonzero. intros. now apply Forall_app. Qed.

Lemma wrap_telegram_spec (s : list Z) (r1 r2 : cell) (rest : buffer) :
  nonzero s ->
  wrap_telegram ((Some <$> s) ++ Some 0%Z :: r1 :: r2 :: rest) =
  Ok ((Some <$> s ++ [13%Z; checksum_byte (s ++ [13%Z])]) ++ Some 0%Z :: rest).
Proof.
  intros Hs. unfold wrap_telegram, C.strcat.
  rewrite strlen_holds by exact Hs. cbn [bind C.cstr Z.eqb].
  unfold store_bytes. cbn [length app].
  rewrite length_app, length_fmap. cbn [length].
  replace (length s + 2 <=? length s + S (S (S (length rest)))) with true
    by (symmetry; apply Nat.leb_le; lia).
  cbn [bind].
  rewrite take_app_length' by now rewrite length_fmap.
  replace (length s + 2) with (S (length s) + 1) by lia.
  rewrite <- drop_drop, drop_holds. cbn [drop fmap list_fmap].
  assert (Hs13 : nonzero (s ++ [13%Z])).
  { apply nonzero_app; [exact Hs | repeat constructor; discriminate]. }
  assert (E : (Some <$> s) ++ [Some 13%Z; Some 0%Z] ++ r2 :: rest
              = (Some <$> s ++ [13%Z]) ++ Some 0%Z :: r2 :: rest).
  { now rewrite fmap_app, <- app_assoc. }
  rewrite E. rewrite compute_checksum_holds by exact Hs13. cbn [bind].
  rewrite strlen_holds by exact Hs13. cbn [bind].
  set (cs := checksum_byte (s ++ [13%Z])).
  rewrite store_Ok by (rewrite holds_total; simpl; lia). cbn [bind].
  rewrite insert_holds.
  rewrite store_Ok by (rewrite holds_total; simpl; lia).
  rewrite insert_holds_S.
  f_equal. rewrite !fmap_app, <- !app_assoc. reflexivity.
Qed.

End Framing.

(** ** Reading strings back *)

Section Reads.
Local Open Scope nat_scope.

Lemma strchr_holds (s : list Z) (rest : buffer) (c : Z) :
  nonzero s -> c <> 0%Z ->
  C.strchr ((Some <$> s) ++ Some 0%Z :: rest) c = Ok (existsb (Z.eqb c) s).
Proof.
  intros Hs Hc. induction Hs as [|x s Hx _ IH].
  - cbn [fmap list_fmap app C.strchr existsb].
    destruct (Z.eqb_spec 0 c) as [E|_]; [congruence | reflexivity].
  - rewrite fmap_cons. cbn [app C.strchr existsb].
    rewrite (Z.eqb_sym c x). destruct (x =? c)%Z; [reflexivity|].
    apply Z.eqb_neq in Hx. now rewrite Hx.
Qed.

Lemma load_bytes_holds (l : list Z) (rest : buffer) :
  load_bytes ((Some <$> l) ++ rest) (length l) = Ok l.
Proof.
  induction l as [|c l IH]; [reflexivity|].
  rewrite fmap_cons. cbn [app length load_bytes]. now rewrite IH.
Qed.

(** A fully initialised, terminated array always holds some C string. *)
Lemma cstr_total (l : list Z) (rest : buffer) :
  exists s, C.cstr ((Some <$> l) ++ Some 0%Z :: rest) = Ok s.
Proof.
  induction l as [|c l [s IH]]; [now exists []|].
  rewrite fmap_cons. cbn [app C.cstr].
  destruct (c =? 0)%Z; [now exists []|]. rewrite IH. now exists (c :: s).
Qed.

Lemma strncpy_bytes_holds (s : list Z) (rest : buffer) (n : nat) :
  nonzero s -> length s < n ->
  C.strncpy_bytes ((Some <$> s) ++ Some 0%Z :: rest) n
  = Ok (s ++ replicate (n - length s) 0%Z).
Proof.
  intros Hs. revert n. induction Hs as [|c s Hc _ IH]; intros n Hn.
  - destruct n; [simpl in Hn; lia|]. reflexivity.
  - destruct n; [simpl in Hn; lia|]. cbn [length] in Hn.
    rewrite fmap_cons. cbn [app C.strncpy_bytes].
    apply Z.eqb_neq in Hc. rewrite Hc, IH by lia. reflexivity.
Qed.

Lemma snprintf_uninit (n : nat) (out : list Z) :
  C.snprintf (uninit (S n)) (S n) out
  = Ok ((Some <$> take n out) ++ Some 0%Z :: uninit (n - length (take n out))).
Proof.
  unfold C.snprintf, uninit.
  rewrite store_string_0 by (rewrite length_take, length_replicate; lia).
  rewrite drop_replicate. do 3 f_equal.
Qed.

Lemma pad_loop_spec (n : nat) :
  forall (message : buffer) (i : nat),
    i + n <= length message ->
    pad_loop n message (Z.of_nat i)
    = Ok (take i message ++ replicate n (Some 32%Z) ++ drop (i + n) message).
Proof.
  induction n as [|n IH]; intros p i Hi.
  - cbn [pad_loop replicate app]. now rewrite Nat.add_0_r, take_drop.
  - cbn [pad_loop]. unfold index.
    replace (Z.of_nat i <? 0)%Z with false by lia. cbn [bind].
    rewrite Nat2Z.id, store_Ok by lia. cbn [bind].
    replace (Z.of_nat i + 1)%Z with (Z.of_nat (i + 1)) by lia.
    rewrite IH by (rewrite length_insert; lia).
    rewrite take_S_insert by lia. rewrite drop_insert_lt by lia.
    rewrite <- app_assoc. cbn [replicate app].
    now replace (i + 1 + n) with (i + S n) by lia.
Qed.

End Reads.

(** ** send_telegram *)

Ltac len_simpl :=
  repeat (rewrite ?length_app, ?length_fmap, ?length_drop, ?length_replicate,
            ?length_take, ?length_insert; cbn [length]).

Section Sending.
Local Open Scope nat_scope.

Lemma Serial_print_print (a b : list Z) (w : World) :
  Serial_print b (Serial_print a w) = Serial_print (a ++ b) w.
Proof. unfold Serial_print. cbn. now rewrite app_assoc. Qed.

(** The debug loop only prints. *)
Lemma hex_loop_holds (s : list Z) (rest : buffer) :
  nonzero s ->
  forall w, exists dbg,
    hex_loop ((Some <$> s) ++ Some 0%Z :: rest) w = Ok (Serial_print dbg w).
Proof.
  induction 1 as [|c s Hc _ IH]; intros w.
  - exists []. cbn. unfold Serial_print. rewrite app_nil_r. now destruct w.
  - rewrite fmap_cons. cbn [app hex_loop].
    apply Z.eqb_neq in Hc. rewrite Hc.
    unfold C.sprintf, fmt_02X.
    rewrite (store_string_0 (uninit 4) [_; _; _]) by (cbn; lia). cbn [bind].
    destruct (cstr_total [hexdigit (Z.quot (Z.land c 255) 16);
                          hexdigit (Z.rem (Z.land c 255) 16); 32%Z]
                (drop 4 (uninit 4))) as [h Hh].
    cbn [length] in *. rewrite Hh. cbn [bind].
    destruct (IH (Serial_print h w)) as [dbg Hd]. rewrite Hd.
    exists (h ++ dbg). now rewrite Serial_print_print.
Qed.

Lemma drop_two (p : buffer) (n : nat) :
  n + 2 <= length p -> exists r1 r2 rest, drop n p = r1 :: r2 :: rest.
Proof.
  intros H. pose proof (length_drop p n) as L.
  destruct (drop n p) as [|r1 [|r2 rest]]; simpl in L; try lia. eauto.
Qed.

Lemma upto_nul_nonzero (n : list Z) : nonzero n -> nonzero (upto_nul n).
Proof.
  intros H. unfold upto_nul, TelegramFramer.
  destruct (Z.eqb_spec (checksum_byte (n ++ [13%Z])) 0) as [_|E].
  - apply nonzero_app; [exact H | repeat constructor; discriminate].
  - apply nonzero_app; [exact H | repeat constructor; [discriminate | exact E]].
Qed.

(** After [wrap_telegram] the array holds the C string [upto_nul n]. *)
Lemma framed_holds (n : list Z) (rest : buffer) :
  exists rest',
    (Some <$> TelegramFramer n) ++ Some 0%Z :: rest
    = (Some <$> upto_nul n) ++ Some 0%Z :: rest'.
Proof.
  unfold upto_nul, TelegramFramer.
  destruct (Z.eqb_spec (checksum_byte (n ++ [13%Z])) 0) as [E|_].
  - exists (Some 0%Z :: rest). rewrite E.
    now rewrite !fmap_app, <- !app_assoc.
  - now exists rest.
Qed.

Lemma send_telegram_spec (tele : list Z) (rest : buffer) (w : World) :
  nonzero tele -> length tele <= 253 ->
  exists dbg,
    send_telegram ((Some <$> tele) ++ Some 0%Z :: rest) w
    = Ok (mkWorld (Serial w ++ dbg)
                  (Serial1 w ++ upto_nul (CharsetNormalizer tele))
                  (gpio w) (flipdotMessage_str w)).
Proof.
  intros Hnz Hlen. unfold send_telegram, C.strncpy.
  change (256 - 1) with 255.
  rewrite strncpy_bytes_holds by (try assumption; lia). cbn [bind].
  rewrite store_bytes_0
    by (unfold uninit; rewrite length_app, !length_replicate; lia).
  cbn [bind].
  destruct (255 - length tele) as [|k] eqn:Ek; [lia|].
  cbn [replicate]. rewrite fmap_app, <- app_assoc, fmap_cons. cbn [app].
  set (tail := (Some <$> replicate k 0%Z) ++ _).
  assert (Htail : length tail = 255 - length tele).
  { unfold tail, uninit. len_simpl. lia. }
  rewrite (process_special_characters_spec _ tele) by now apply cstr_holds.
  cbn [bind].
  pose proof (CharsetNormalizer_length tele) as Hn.
  pose proof (CharsetNormalizer_nonzero tele Hnz) as Hnnz.
  set (n := CharsetNormalizer tele) in *.
  destruct (drop_two ((Some <$> tele) ++ Some 0%Z :: tail) (S (length n)))
    as (r1 & r2 & rest' & Hd).
  { rewrite holds_total. cbn [length]. lia. }
  rewrite Hd, wrap_telegram_spec by exact Hnnz. cbn [bind].
  change (n ++ [13%Z; checksum_byte (n ++ [13%Z])]) with (TelegramFramer n).
  destruct (framed_holds n rest') as [rest'' ->].
  pose proof (upto_nul_nonzero n Hnnz) as Hu.
  destruct (hex_loop_holds (upto_nul n) rest'' Hu
              (Serial_print (bytes "Sending HEX: ") w)) as [dbg ->].
  cbn [bind]. rewrite cstr_holds by exact Hu. cbn [bind].
  rewrite strlen_holds by exact Hu. cbn [bind].
  unfold Serial1_write. rewrite load_bytes_holds. cbn [bind].
  eexists. unfold Serial_println. rewrite !Serial_print_print.
  unfold Serial_print. cbn [Serial Serial1 gpio flipdotMessage_str].
  reflexivity.
Qed.

End Sending.

(** ** DS021t *)

Lemma num_blocks_bounds (len : Z) :
  0 <= len ->
  len <= DS021t_num_blocks len * 16 - 2 <= len + 15.
Proof.
  intros H. unfold DS021t_num_blocks.
  rewrite Z.quot_div_nonneg by lia.
  pose proof (Z.div_mod (len + 2 + 15) 16 ltac:(lia)).
  pose proof (Z.mod_pos_bound (len + 2 + 15) 16 ltac:(lia)). lia.
Qed.

Lemma num_blocks_ceiling (len : Z) :
  0 <= len ->
  16 * (DS021t_num_blocks len - 1) < len + 2 <= 16 * DS021t_num_blocks len.
Proof. intros H. pose proof (num_blocks_bounds len H). lia. Qed.

Section Encoder.
Local Open Scope nat_scope.

Lemma line_breaks_nonzero (t : list Z) : nonzero (line_breaks t).
Proof.
  unfold line_breaks. destruct (existsb _ t); repeat constructor; discriminate.
Qed.

Lemma nonzero_replicate (n : nat) (c : Z) : c <> 0%Z -> nonzero (replicate n c).
Proof. intros H. induction n; now constructor. Qed.

Lemma nonzero_bytes (s : string) :
  forallb (fun c => negb (c =? 0)%Z) (bytes s) = true -> nonzero (bytes s).
Proof.
  unfold nonzero. induction (bytes s) as [|c l IH]; cbn [forallb]; intros H.
  - constructor.
  - apply andb_prop in H as [Hc Hl]. constructor; [|now apply IH].
    now apply Z.eqb_neq, negb_true_iff.
Qed.

Lemma DS021t_message_holds (t : list Z) (rest : buffer) :
  nonzero t ->
  DS021t_message ((Some <$> t) ++ Some 0%Z :: rest)
  = Ok ((Some <$> take 255 (t ++ line_breaks t)) ++
        Some 0%Z :: uninit (255 - length (take 255 (t ++ line_breaks t)))).
Proof.
  intros Ht. unfold DS021t_message.
  rewrite strchr_holds by (try assumption; discriminate). cbn [bind].
  rewrite cstr_holds by exact Ht. cbn [bind].
  change 256 with (S 255). unfold line_breaks.
  destruct (existsb (Z.eqb 10) t); apply snprintf_uninit.
Qed.

(** The padding loop, and the terminator stored after it. *)
Lemma pad_loop_holds (m : list Z) (tail : buffer) (k : nat) :
  k <= length tail ->
  pad_loop k ((Some <$> m) ++ tail) (Z.of_nat (length m))
  = Ok ((Some <$> m ++ replicate k 32%Z) ++ drop k tail).
Proof.
  intros Hk. rewrite pad_loop_spec by (rewrite holds_total; lia).
  rewrite take_app_length' by now rewrite length_fmap.
  rewrite drop_app_add' by now rewrite length_fmap.
  now rewrite fmap_app, fmap_replicate, <- app_assoc.
Qed.

Lemma terminate_holds (s : list Z) (tail : buffer) (k : nat) :
  k < length tail ->
  store ((Some <$> s) ++ drop k tail) (length s) 0%Z
  = Ok ((Some <$> s) ++ Some 0%Z :: drop (S k) tail).
Proof.
  intros Hk. pose proof (length_drop tail k) as Hd'.
  rewrite <- Nat.add_1_r, <- drop_drop.
  destruct (drop k tail) as [|c tail'] eqn:Hd; [simpl in Hd'; lia|].
  rewrite store_Ok by (rewrite holds_total; simpl; lia).
  now rewrite insert_holds.
Qed.

Lemma padded_message_nonzero (m : list Z) :
  nonzero m -> nonzero (padded_message m).
Proof.
  intros H. apply nonzero_app; [exact H|]. now apply nonzero_replicate.
Qed.

Lemma padded_message_length (m : list Z) :
  Z.of_nat (length (padded_message m))
  = (DS021t_num_blocks (Z.of_nat (length m)) * 16 - 2)%Z.
Proof.
  unfold padded_message. rewrite length_app, length_replicate.
  pose proof (num_blocks_bounds (Z.of_nat (length m)) ltac:(lia)). lia.
Qed.

Lemma DS021t_payload_nonzero (address : Z) (m : list Z) :
  nonzero m -> nonzero (DS021t_payload address m).
Proof.
  intros H. unfold DS021t_payload.
  apply nonzero_app; [now apply nonzero_bytes|].
  apply nonzero_app; [apply VdvHexCodec_nonzero|].
  apply nonzero_app; [apply VdvHexCodec_nonzero|].
  apply nonzero_app; [now apply nonzero_bytes|].
  now apply padded_message_nonzero.
Qed.

Lemma DS021t_payload_length (address : Z) (m : list Z) :
  length m <= 238 -> length (DS021t_payload address m) <= 253.
Proof.
  intros H. unfold DS021t_payload. rewrite !length_app.
  pose proof (VdvHexCodec_length address).
  pose proof (VdvHexCodec_length (DS021t_num_blocks (Z.of_nat (length m)))).
  pose proof (padded_message_length m) as L.
  pose proof (num_blocks_bounds (Z.of_nat (length m)) ltac:(lia)).
  assert (DS021t_num_blocks (Z.of_nat (length m)) <= 15)%Z.
  { unfold DS021t_num_blocks. rewrite Z.quot_div_nonneg by lia.
    apply Z.lt_succ_r, Z.div_lt_upper_bound; lia. }
  change (length (bytes "aA")) with 2. change (length (bytes "A0")) with 2.
  lia.
Qed.

(** [DS021t] on a text whose message leaves room for the telegram: what goes
    out on [Serial1]. *)
Lemma DS021t_holds (address : Z) (t : list Z) (rest : buffer) (w : World) :
  nonzero t -> length (t ++ line_breaks t) <= 238 ->
  exists dbg,
    DS021t address ((Some <$> t) ++ Some 0%Z :: rest) w
    = Ok (mkWorld (Serial w ++ dbg)
            (Serial1 w ++
               upto_nul (CharsetNormalizer
                           (DS021t_payload address (t ++ line_breaks t))))
            (gpio w) (flipdotMessage_str w)).
Proof.
  intros Ht Hlen. unfold DS021t.
  rewrite DS021t_message_holds by exact Ht. cbn [bind].
  rewrite take_ge by lia.
  set (m := t ++ line_breaks t) in *.
  assert (Hm : nonzero m) by (apply nonzero_app; auto using line_breaks_nonzero).
  rewrite strlen_holds by exact Hm. cbn [bind].
  pose proof (num_blocks_bounds (Z.of_nat (length m)) ltac:(lia)) as HN.
  set (N := DS021t_num_blocks (Z.of_nat (length m))) in *.
  set (k := Z.to_nat (N * 16 - 2 - Z.of_nat (length m))).
  unfold index. replace (N * 16 - 2 <? 0)%Z with false by lia.
  replace (Z.to_nat (N * 16 - 2)) with (length m + k) by lia.
  cbn [bind].
  rewrite pad_loop_holds
    by (unfold uninit; cbn [length]; rewrite length_replicate; lia).
  cbn [bind].
  replace (length m + k) with (length (m ++ replicate k 32%Z))
    by now rewrite length_app, length_replicate.
  rewrite terminate_holds
    by (unfold uninit; cbn [length]; rewrite length_replicate; lia).
  cbn [bind].
  rewrite !vdv_hex_spec by (unfold uninit; rewrite length_replicate; lia).
  cbn [bind].
  rewrite !cstr_holds by auto using VdvHexCodec_nonzero. cbn [bind].
  change (m ++ replicate k 32%Z) with (padded_message m).
  rewrite cstr_holds by now apply padded_message_nonzero. cbn [bind].
  change 256 with (S 255). rewrite snprintf_uninit. cbn [bind].
  change (bytes "aA" ++ VdvHexCodec address ++ VdvHexCodec N ++
          bytes "A0" ++ padded_message m) with (DS021t_payload address m).
  pose proof (DS021t_payload_length address m Hlen) as HL.
  rewrite take_ge by lia.
  apply send_telegram_spec; [now apply DS021t_payload_nonzero | exact HL].
Qed.

End Encoder.

(** ** Texts the normalizer leaves alone *)

Lemma CharsetNormalizer_no_lead (s : list Z) :
  no_lead s -> CharsetNormalizer s = s.
Proof.
  induction 1 as [|c s Hc _ IH]; [reflexivity|].
  now rewrite CharsetNormalizer_other, IH.
Qed.

Lemma CharsetNormalizer_app_prefix (a b : list Z) :
  no_lead a -> CharsetNormalizer (a ++ b) = a ++ CharsetNormalizer b.
Proof.
  induction 1 as [|c a Hc _ IH]; [reflexivity|].
  cbn [app]. now rewrite CharsetNormalizer_other, IH.
Qed.

Lemma CharsetNormalizer_app_suffix (t : list Z) (c : Z) (b : list Z) :
  replacement c = None -> no_lead (c :: b) ->
  CharsetNormalizer (t ++ c :: b) = CharsetNormalizer t ++ c :: b.
Proof.
  intros Hc Hb.
  induction t as [| x | d r s Hr IH | x d s H IH] using CharsetNormalizer_ind.
  - now apply CharsetNormalizer_no_lead.
  - cbn [app]. rewrite CharsetNormalizer_lone by exact Hc.
    now rewrite CharsetNormalizer_no_lead.
  - cbn [app]. rewrite !(CharsetNormalizer_mapped d r) by exact Hr.
    now rewrite IH.
  - cbn [app] in *.
    destruct H as [Hx|Hd].
    + rewrite !(CharsetNormalizer_other x) by exact Hx. now rewrite IH.
    + rewrite !(CharsetNormalizer_lone x d) by exact Hd. now rewrite IH.
Qed.

Lemma CharsetNormalizer_fixed (t : list Z) :
  has_mapped_pair t = false -> CharsetNormalizer t = t.
Proof.
  induction t as [| x | d r s Hr IH | x d s H IH] using CharsetNormalizer_ind;
    intros Hno.
  - reflexivity.
  - reflexivity.
  - cbn [has_mapped_pair] in Hno. unfold mapped in Hno. rewrite Hr in Hno.
    discriminate.
  - assert (E : CharsetNormalizer (x :: d :: s) = x :: CharsetNormalizer (d :: s)).
    { destruct H; [now apply CharsetNormalizer_other
                  | now apply CharsetNormalizer_lone]. }
    rewrite E, IH; [reflexivity|].
    change (has_mapped_pair (x :: d :: s))
      with (((x =? 0xC3) && mapped d) || has_mapped_pair (d :: s)) in Hno.
    now apply orb_false_elim in Hno.
Qed.

Lemma VdvHexCodec_range (value : Z) :
  Forall (fun c => 48 <= c <= 63) (VdvHexCodec value).
Proof.
  unfold VdvHexCodec.
  destruct (Z.leb_spec 0 value), (Z.leb_spec value 15),
    (Z.leb_spec 16 value), (Z.leb_spec value 255); cbn [andb];
    try (repeat constructor; cbn; lia); try lia.
  - rewrite vdv_alphabet_nth by lia. repeat constructor; lia.
  - pose proof (Z.div_pos value 16 ltac:(lia) ltac:(lia)).
    assert (value / 16 < 16) by (apply Z.div_lt_upper_bound; lia).
    pose proof (Z.mod_pos_bound value 16 ltac:(lia)).
    rewrite !vdv_alphabet_nth by lia. repeat constructor; lia.
Qed.

Lemma VdvHexCodec_no_lead (value : Z) : no_lead (VdvHexCodec value).
Proof.
  eapply Forall_impl; [apply VdvHexCodec_range|]. cbn. intros c Hc. lia.
Qed.

(** A text without mapped pairs passes [send_telegram] unchanged. *)
Lemma DS021t_payload_fixed (address : Z) (t : list Z) :
  has_mapped_pair t = false ->
  CharsetNormalizer (DS021t_payload address (t ++ line_breaks t))
  = DS021t_payload address (t ++ line_breaks t).
Proof.
  intros Hno. unfold DS021t_payload.
  set (N := DS021t_num_blocks _).
  set (hdr := ((bytes "aA" ++ VdvHexCodec address) ++ VdvHexCodec N) ++ bytes "A0").
  replace (bytes "aA" ++ VdvHexCodec address ++ VdvHexCodec N ++ bytes "A0"
             ++ padded_message (t ++ line_breaks t))
    with (hdr ++ padded_message (t ++ line_breaks t))
    by (unfold hdr; now rewrite <- !app_assoc).
  assert (Hh : no_lead hdr).
  { unfold hdr, no_lead. rewrite !Forall_app.
    repeat split; try apply VdvHexCodec_no_lead;
      repeat constructor; discriminate. }
  rewrite CharsetNormalizer_app_prefix by exact Hh. f_equal.
  unfold padded_message. set (k := Z.to_nat _). rewrite <- app_assoc.
  assert (E : exists b, line_breaks t ++ replicate k 32 = 10 :: b /\ no_lead b).
  { unfold line_breaks. destruct (existsb _ t); eexists; (split; [reflexivity|]);
      unfold no_lead; repeat (constructor; [discriminate|]);
      apply Forall_replicate; discriminate. }
  destruct E as (b & -> & Hb).
  rewrite CharsetNormalizer_app_suffix;
    [now rewrite CharsetNormalizer_fixed | reflexivity |].
  constructor; [discriminate | exact Hb].
Qed.

(** ** mqtt_callback *)

Section Callback.
Local Open Scope nat_scope.

Lemma strcmp_holds (s1 : list Z) :
  forall (s2 : list Z) (r1 r2 : buffer),
    nonzero s1 -> nonzero s2 ->
    exists z, C.strcmp ((Some <$> s1) ++ Some 0%Z :: r1)
                       ((Some <$> s2) ++ Some 0%Z :: r2) = Ok z
              /\ (z = 0%Z <-> s1 = s2).
Proof.
  induction s1 as [|x s1 IH]; intros [|y s2] r1 r2 H1 H2;
    rewrite ?fmap_cons; cbn [fmap list_fmap app C.strcmp].
  - exists 0%Z. cbn. tauto.
  - inversion H2; subst. replace (0 =? y)%Z with false by lia.
    exists (0 - y)%Z. split; [reflexivity|]. split; [lia | discriminate].
  - inversion H1; subst. replace (x =? 0)%Z with false by lia.
    exists (x - 0)%Z. split; [reflexivity|]. split; [lia | discriminate].
  - inversion H1; inversion H2; subst.
    destruct (Z.eqb_spec x y) as [->|Hne].
    + replace (y =? 0)%Z with false by lia.
      destruct (IH s2 r1 r2) as (z & Hz & Hiff); try assumption.
      exists z. split; [exact Hz|]. rewrite Hiff.
      split; [now intros -> | now intros [= ->]].
    + exists (x - y)%Z. split; [reflexivity|].
      split; [lia | intros [= -> _]; congruence].
Qed.

(** Comparing a topic with one of the two topic literals. *)
Lemma strcmp_topic (topic : buffer) (t : list Z) (name : string) :
  C.cstr topic = Ok t -> nonzero (bytes name) ->
  exists z, C.strcmp topic (lit name) = Ok z /\ (z = 0%Z <-> t = bytes name).
Proof.
  intros H Hn. apply cstr_inv in H as [Ht Hp]. rewrite Hp. unfold lit.
  now apply strcmp_holds.
Qed.

(** The local copy of the payload: at most 255 bytes and a NUL. *)
Lemma memcpy_holds (dst : buffer) (payload : list Z) :
  length dst = 256 ->
  C.memcpy dst (Some <$> payload) (min (length payload) (256 - 1))
  = Ok ((Some <$> take 255 payload) ++ drop (length (take 255 payload)) dst).
Proof.
  intros Hd. unfold C.memcpy. change (256 - 1) with 255.
  rewrite length_fmap, Hd.
  replace (min (length payload) 255 <=? length payload) with true
    by (symmetry; apply Nat.leb_le; lia).
  replace (min (length payload) 255 <=? 256) with true
    by (symmetry; apply Nat.leb_le; lia).
  cbn [andb]. rewrite <- fmap_take, length_take, (Nat.min_comm 255).
  do 3 f_equal. rewrite <- take_take. apply take_ge. now rewrite length_take; lia.
Qed.

Lemma payload_copy (dst : buffer) (payload : list Z) :
  length dst = 256 ->
  exists rest,
    (let* b := C.memcpy dst (Some <$> payload) (min (length payload) (256 - 1)) in
     store b (min (length payload) (256 - 1)) 0%Z)
    = Ok ((Some <$> take 255 payload) ++ Some 0%Z :: rest).
Proof.
  intros Hd. rewrite memcpy_holds by exact Hd. cbn [bind].
  change (256 - 1) with 255.
  replace (min (length payload) 255) with (length (take 255 payload))
    by (rewrite length_take; lia).
  rewrite terminate_holds by (rewrite length_take; lia). eauto.
Qed.

(** The lighting branch of [mqtt_callback], with the payload copied. *)
Lemma mqtt_callback_lighting (topic : buffer) (payload : list Z) (w : World) :
  C.cstr topic = Ok (bytes "home/flipdot/lighting") ->
  mqtt_callback topic (Some <$> payload) (length payload) w
  = let buffer := (Some <$> take 255 payload) ++
                  Some 0%Z :: drop (S (length (take 255 payload))) (uninit 256) in
    let* c := C.strncmp buffer (lit "On") 2 in
    if (c =? 0)%Z then Ok (digitalWrite lightingPin HIGH w)
    else
      let* c := C.strncmp buffer (lit "Off") 3 in
      if (c =? 0)%Z then Ok (digitalWrite lightingPin LOW w)
      else Ok w.
Proof.
  intros Hc. unfold mqtt_callback, topic_message, topic_lighting.
  rewrite memcpy_holds by reflexivity. cbn [bind].
  change (256 - 1) with 255.
  replace (min (length payload) 255) with (length (take 255 payload))
    by (rewrite length_take; lia).
  rewrite terminate_holds
    by (unfold uninit; rewrite length_take, length_replicate; lia).
  cbn [bind].
  destruct (strcmp_topic topic _ "home/flipdot/message" Hc)
    as (z1 & -> & Hz1); [now apply nonzero_bytes|].
  destruct (strcmp_topic topic _ "home/flipdot/lighting" Hc)
    as (z2 & -> & Hz2); [now apply nonzero_bytes|].
  cbn [bind].
  destruct (Z.eqb_spec z1 0) as [E|_];
    [apply Hz1 in E; vm_compute in E; discriminate E|].
  destruct (Z.eqb_spec z2 0) as [_|E]; [reflexivity|].
  exfalso. apply E, Hz2. reflexivity.
Qed.

End Callback.

(** * The claims of the specification *)

(** ** TelegramFramer and ChecksumComputer *)

(** C4: for a C string [payload] of bytes in an array with room for two more
    bytes and the terminator, [wrap_telegram] leaves exactly
    [length payload + 2] bytes: the payload, a carriage return, and the
    checksum byte, which is the XOR fold from [0x7F] over payload and carriage
    return; computing the checksum again over all bytes but the last gives the
    last byte; the checksum of ["A"] is [0x7F xor 0x41 = 0x3E]. *)
Theorem C4_wrap_telegram_frames (telegram : buffer) (payload : list Z) :
  C.cstr telegram = Ok payload ->
  Forall is_byte payload ->
  (length payload + 3 <= length telegram)%nat ->
  let checksum := ChecksumComputer (payload ++ [13]) in
  let framed := payload ++ [13; checksum] in
  wrap_telegram telegram
    = Ok ((Some <$> framed) ++ Some 0 :: drop (length payload + 3) telegram)
  /\ length framed = (length payload + 2)%nat
  /\ compute_checksum (lit "A") = Ok 0x3E
  /\ Z.lxor 0x7F 0x41 = 0x3E
  /\ last framed = Some checksum
  /\ compute_checksum ((Some <$> removelast framed) ++ [Some 0]) = Ok checksum.
Proof.
  intros Hc Hb Hlen checksum framed.
  apply cstr_inv in Hc as [Hnz Hp].
  assert (Hcs : checksum_byte (payload ++ [13]) = checksum).
  { apply checksum_byte_bytes, Forall_app. split; [exact Hb|].
    repeat constructor; unfold is_byte; lia. }
  repeat split.
  - destruct (drop_two telegram (S (length payload)) ltac:(lia))
      as (r1 & r2 & rest & Hd).
    rewrite Hp at 1. rewrite Hd, wrap_telegram_spec by exact Hnz.
    rewrite Hcs. do 3 f_equal.
    replace (length payload + 3)%nat with (S (length payload) + 2)%nat by lia.
    now rewrite <- drop_drop, Hd.
  - unfold framed. rewrite length_app. reflexivity.
  - unfold framed.
    replace (payload ++ [13; checksum]) with ((payload ++ [13]) ++ [checksum])
      by now rewrite <- app_assoc.
    apply last_snoc.
  - unfold framed.
    replace (payload ++ [13; checksum]) with ((payload ++ [13]) ++ [checksum])
      by now rewrite <- app_assoc.
    rewrite removelast_last.
    rewrite compute_checksum_holds; [now rewrite Hcs|].
    apply nonzero_app; [exact Hnz | repeat constructor; discriminate].
Qed.

Lemma C4_wrap_telegram_frames_witness :
  C.cstr (lit "A" ++ uninit 2) = Ok (bytes "A")
  /\ Forall is_byte (bytes "A")
  /\ (length (bytes "A") + 3 <= length (lit "A" ++ uninit 2))%nat
  /\ wrap_telegram (lit "A" ++ uninit 2)
     = Ok ((Some <$> bytes "A" ++ [13; ChecksumComputer (bytes "A" ++ [13])])
             ++ Some 0 :: drop (length (bytes "A") + 3) (lit "A" ++ uninit 2)).
Proof.
  assert (H1 : C.cstr (lit "A" ++ uninit 2) = Ok (bytes "A")) by reflexivity.
  assert (H2 : Forall is_byte (bytes "A"))
    by (repeat constructor; unfold is_byte; cbn; lia).
  assert (H3 : (length (bytes "A") + 3 <= length (lit "A" ++ uninit 2))%nat)
    by (cbn; lia).
  split; [exact H1|]. split; [exact H2|]. split; [exact H3|].
  exact (proj1 (C4_wrap_telegram_frames _ _ H1 H2 H3)).
Defined.

(** ** VdvHexCodec *)

(** C5: [vdv_hex] writes one character of ["0123456789:;<=>?"] for a value in
    [0,15], the characters of the high and the low nibble for a value in
    [16,255], and ["??"] for any other value. *)
Theorem C5_vdv_hex_encoding (value : Z) (output : buffer) :
  (3 <= length output)%nat ->
  exists out,
    vdv_hex value output = Ok out
    /\ (0 <= value <= 15 ->
        C.cstr out = Ok [nth (Z.to_nat value) vdv_alphabet 0])
    /\ (16 <= value <= 255 ->
        C.cstr out = Ok [nth (Z.to_nat (value / 16)) vdv_alphabet 0;
                         nth (Z.to_nat (value mod 16)) vdv_alphabet 0])
    /\ (value < 0 \/ 255 < value -> C.cstr out = Ok (bytes "??")).
Proof.
  intros H. eexists. split; [now apply vdv_hex_spec|].
  rewrite cstr_holds by apply VdvHexCodec_nonzero. unfold VdvHexCodec.
  repeat split; intros Hv.
  - now replace ((0 <=? value) && (value <=? 15)) with true by lia.
  - replace ((0 <=? value) && (value <=? 15)) with false by lia.
    now replace ((16 <=? value) && (value <=? 255)) with true by lia.
  - replace ((0 <=? value) && (value <=? 15)) with false by lia.
    now replace ((16 <=? value) && (value <=? 255)) with false by lia.
Qed.

Lemma C5_vdv_hex_encoding_witness :
  (3 <= length (uninit 3))%nat
  /\ exists out,
       vdv_hex 200 (uninit 3) = Ok out
       /\ (0 <= 200 <= 15 ->
           C.cstr out = Ok [nth (Z.to_nat 200) vdv_alphabet 0])
       /\ (16 <= 200 <= 255 ->
           C.cstr out = Ok [nth (Z.to_nat (200 / 16)) vdv_alphabet 0;
                            nth (Z.to_nat (200 mod 16)) vdv_alphabet 0])
       /\ (200 < 0 \/ 255 < 200 -> C.cstr out = Ok (bytes "??")).
Proof.
  split; [cbn; lia|]. apply (C5_vdv_hex_encoding 200 (uninit 3)). cbn. lia.
Defined.

(** ** CharsetNormalizer *)

(** C6: on any array holding a C string [s], [process_special_characters]
    stops at the first NUL and leaves, in the same array, the string in which
    exactly the seven pairs [C3 xx] of the table are replaced by their output
    byte and every other byte is copied (a lead byte [C3] without a mapped
    continuation byte too); the result is never longer than [s]; the seven
    bytes of ["Müller"] become the six of ["M}ller"]. *)
Theorem C6_process_special_characters_normalizes
  (telegram : buffer) (s : list Z) :
  C.cstr telegram = Ok s ->
  process_special_characters telegram
    = Ok ((Some <$> CharsetNormalizer s) ++
          Some 0 :: drop (S (length (CharsetNormalizer s))) telegram)
  /\ (length (CharsetNormalizer s) <= length s)%nat
  /\ (has_mapped_pair s = false -> CharsetNormalizer s = s)
  /\ CharsetNormalizer_table
     = [(0xA4, 123); (0xB6, 124); (0xBC, 125); (0x9F, 126);
        (0x84, 91); (0x96, 92); (0x9C, 93)]
  /\ bytes "{|}~[\]" = [123; 124; 125; 126; 91; 92; 93]
  /\ CharsetNormalizer [0xC3] = [0xC3]
  /\ CharsetNormalizer [0xC3; 0x41] = [0xC3; 0x41]
  /\ CharsetNormalizer [77; 0xC3; 0xBC; 108; 108; 101; 114] = bytes "M}ller".
Proof.
  intros H. split; [now apply process_special_characters_spec|].
  split; [apply CharsetNormalizer_length|].
  split; [apply CharsetNormalizer_fixed|]. repeat split.
Qed.

Lemma C6_process_special_characters_normalizes_witness :
  C.cstr (Some <$> [77; 0xC3; 0xBC; 108; 108; 101; 114; 0])
    = Ok [77; 0xC3; 0xBC; 108; 108; 101; 114]
  /\ process_special_characters
       (Some <$> [77; 0xC3; 0xBC; 108; 108; 101; 114; 0])
     = Ok (Some <$> bytes "M}ller" ++ [0; 0]).
Proof.
  split; [reflexivity|].
  exact (proj1 (C6_process_special_characters_normalizes
                  (Some <$> [77; 0xC3; 0xBC; 108; 108; 101; 114; 0])
                  [77; 0xC3; 0xBC; 108; 108; 101; 114] eq_refl)).
Defined.

(** C9: [process_special_characters] is idempotent on the array: a second
    call changes nothing. *)
Theorem C9_process_special_characters_idempotent
  (telegram : buffer) (s : list Z) :
  C.cstr telegram = Ok s ->
  exists once,
    process_special_characters telegram = Ok once
    /\ process_special_characters once = Ok once.
Proof.
  intros H. eexists.
  split; [exact (process_special_characters_spec telegram s H)|].
  rewrite (process_special_characters_spec _ (CharsetNormalizer s)).
  - rewrite CharsetNormalizer_idempotent. now rewrite drop_holds.
  - apply cstr_holds, CharsetNormalizer_nonzero. now apply cstr_inv in H as [H _].
Qed.

Lemma C9_process_special_characters_idempotent_witness :
  C.cstr (Some <$> [77; 0xC3; 0xBC; 108; 108; 101; 114; 0])
    = Ok [77; 0xC3; 0xBC; 108; 108; 101; 114]
  /\ exists once,
       process_special_characters
         (Some <$> [77; 0xC3; 0xBC; 108; 108; 101; 114; 0]) = Ok once
       /\ process_special_characters once = Ok once.
Proof.
  split; [reflexivity|].
  exact (C9_process_special_characters_idempotent
           (Some <$> [77; 0xC3; 0xBC; 108; 108; 101; 114; 0])
           [77; 0xC3; 0xBC; 108; 108; 101; 114] eq_refl).
Defined.

(** ** DisplayEncoder *)

(** C1, as the code has it: for a text without mapped pairs whose message
    (text and line breaks) has at most 238 bytes, the bytes on [Serial1] are
    the type marker, the address, the block count [N], the sub-type marker
    and a payload of [16 * N - 2] bytes, then the carriage return and the
    checksum byte; the sub-type marker and the payload together fill whole
    blocks of 16. *)
Theorem C1_marker_and_payload_fill_blocks
  (address : Z) (text : buffer) (t : list Z) (w : World) :
  C.cstr text = Ok t ->
  has_mapped_pair t = false ->
  (length (t ++ line_breaks t) <= 238)%nat ->
  let N := DS021t_num_blocks (Z.of_nat (length (t ++ line_breaks t))) in
  let payload := padded_message (t ++ line_breaks t) in
  exists w',
    DS021t address text w = Ok w'
    /\ Serial1 w'
       = Serial1 w ++
         upto_nul (bytes "aA" ++ VdvHexCodec address ++ VdvHexCodec N ++
                   bytes "A0" ++ payload)
    /\ Z.of_nat (length payload) = 16 * N - 2
    /\ Z.of_nat (length (bytes "A0" ++ payload)) mod 16 = 0.
Proof.
  intros Hc Hno Hlen N payload.
  apply cstr_inv in Hc as [Hnz Hp]. rewrite Hp.
  destruct (DS021t_holds address t (drop (S (length t)) text) w Hnz Hlen)
    as [dbg ->].
  eexists. split; [reflexivity|]. cbn [Serial1].
  rewrite DS021t_payload_fixed by exact Hno.
  split; [reflexivity|].
  pose proof (padded_message_length (t ++ line_breaks t)) as L.
  fold N payload in L. split; [lia|].
  rewrite length_app. change (length (bytes "A0")) with 2%nat.
  replace (Z.of_nat (2 + length payload)) with (N * 16) by lia.
  apply Z.mod_mul. lia.
Qed.

Lemma C1_marker_and_payload_fill_blocks_witness :
  C.cstr (lit "Hello") = Ok (bytes "Hello")
  /\ has_mapped_pair (bytes "Hello") = false
  /\ (length (bytes "Hello" ++ line_breaks (bytes "Hello")) <= 238)%nat
  /\ exists w',
       DS021t 2 (lit "Hello") initial_world = Ok w'
       /\ Serial1 w'
          = Serial1 initial_world ++
            upto_nul (bytes "aA" ++ VdvHexCodec 2 ++
                      VdvHexCodec
                        (DS021t_num_blocks
                           (Z.of_nat (length (bytes "Hello" ++
                                              line_breaks (bytes "Hello"))))) ++
                      bytes "A0" ++
                      padded_message (bytes "Hello" ++ line_breaks (bytes "Hello")))
       /\ Z.of_nat (length (padded_message
                              (bytes "Hello" ++ line_breaks (bytes "Hello"))))
          = 16 * DS021t_num_blocks
                   (Z.of_nat (length (bytes "Hello" ++
                                      line_breaks (bytes "Hello")))) - 2
       /\ Z.of_nat (length (bytes "A0" ++
                            padded_message
                              (bytes "Hello" ++ line_breaks (bytes "Hello"))))
          mod 16 = 0.
Proof.
  split; [reflexivity|]. split; [reflexivity|]. split; [vm_compute; lia|].
  apply (C1_marker_and_payload_fill_blocks 2 (lit "Hello") (bytes "Hello")
           initial_world); [reflexivity | reflexivity | vm_compute; lia].
Defined.

(** C1 as stated fails: for address 2 and the text ["Hello"] the 14 bytes
    between the sub-type marker and the carriage return are not a multiple of
    16, however the block count field is delimited. *)
Lemma C1_payload_not_block_aligned :
  exists w',
    DS021t 2 (lit "Hello") initial_world = Ok w'
    /\ Serial1 w'
       = bytes "aA21A0" ++ (bytes "Hello" ++ [10; 10; 10] ++ replicate 6 32)
           ++ [13; 104]
    /\ ~ payload_block_aligned 2 (Serial1 w').
Proof.
  eexists. split; [vm_compute; reflexivity|]. split; [reflexivity|].
  intros (blocks & payload & checksum & E & Hb & Hm).
  apply (f_equal length) in E. cbn [Serial1] in E.
  rewrite !length_app in E.
  change (length (VdvHexCodec 2)) with 1%nat in E. cbn [length] in E.
  change (length (bytes "aA")) with 2%nat in E.
  change (length (bytes "A0")) with 2%nat in E.
  assert (Hp : length payload = 14%nat \/ length payload = 13%nat) by lia.
  destruct Hp as [Hp|Hp]; rewrite Hp in Hm; discriminate Hm.
Qed.

(** What the amended C1 leaves open: with a mapped pair in the text the
    padding is computed on the raw bytes and the normalizer then shortens the
    message, here to 13 bytes after the sub-type marker. *)
Example DS021t_mapped_pair_short_block :
  exists w',
    DS021t 2 ((Some <$> [77; 0xC3; 0xBC; 108; 108; 101; 114]) ++ [Some 0])
      initial_world = Ok w'
    /\ Serial1 w'
       = bytes "aA21A0" ++ (bytes "M}ller" ++ [10; 10; 10] ++ replicate 4 32)
           ++ [13; 13].
Proof. eexists. split; [vm_compute; reflexivity | reflexivity]. Qed.

(** C8, as the code has it: for a text without mapped pairs whose message
    (text and line breaks) has at most 238 bytes, [DS021t] returns; two line
    breaks follow a text with a line break and three any other text; the
    block count [N] in the telegram is the ceiling of the message length plus
    2 over 16, taken from [strlen(message)] in this call; and the bytes on
    [Serial1] carry that [N] in the block count field, then the sub-type
    marker, the text, the line breaks and the padding of spaces. *)
Theorem C8_line_breaks_and_block_count
  (address : Z) (text : buffer) (t : list Z) (w : World) :
  C.cstr text = Ok t ->
  has_mapped_pair t = false ->
  (length (t ++ line_breaks t) <= 238)%nat ->
  let len := Z.of_nat (length (t ++ line_breaks t)) in
  let N := DS021t_num_blocks len in
  (10 ∈ t -> line_breaks t = [10; 10])
  /\ (10 ∉ t -> line_breaks t = [10; 10; 10])
  /\ 16 * (N - 1) < len + 2 <= 16 * N
  /\ exists message w',
       DS021t_message text = Ok message
       /\ C.cstr message = Ok (t ++ line_breaks t)
       /\ C.strlen message = Ok (length (t ++ line_breaks t))
       /\ DS021t address text w = Ok w'
       /\ Serial1 w'
          = Serial1 w ++
            upto_nul (bytes "aA" ++ VdvHexCodec address ++ VdvHexCodec N ++
                      bytes "A0" ++ t ++ line_breaks t ++
                      replicate (Z.to_nat (N * 16 - 2 - len)) 32).
Proof.
  intros Hc Hno Hlen len N.
  apply cstr_inv in Hc as [Hnz Hp]. rewrite Hp.
  assert (Hex : existsb (Z.eqb 10) t = true <-> 10 ∈ t).
  { rewrite existsb_exists. setoid_rewrite list_elem_of_In. split.
    - intros (x & Hx & E). apply Z.eqb_eq in E. now subst.
    - intros Hx. exists 10. split; [exact Hx | reflexivity]. }
  split; [|split; [|split]].
  - intros Hin. apply Hex in Hin. unfold line_breaks. now rewrite Hin.
  - intros Hout. unfold line_breaks.
    destruct (existsb (Z.eqb 10) t); [|reflexivity].
    exfalso. apply Hout. now apply Hex.
  - apply num_blocks_ceiling. lia.
  - rewrite DS021t_message_holds by exact Hnz. rewrite take_ge by lia.
    assert (Hm : nonzero (t ++ line_breaks t))
      by (apply nonzero_app; auto using line_breaks_nonzero).
    destruct (DS021t_holds address t (drop (S (length t)) text) w Hnz Hlen)
      as [dbg ->].
    eexists. eexists. split; [reflexivity|].
    split; [now apply cstr_holds|].
    split; [now apply strlen_holds|].
    split; [reflexivity|]. cbn [Serial1].
    rewrite DS021t_payload_fixed by exact Hno.
    unfold DS021t_payload, padded_message. cbv zeta. fold len N.
    now rewrite <- app_assoc.
Qed.

Lemma C8_line_breaks_and_block_count_witness :
  C.cstr ((Some <$> text_two_lines) ++ [Some 0]) = Ok text_two_lines
  /\ has_mapped_pair text_two_lines = false
  /\ (length (text_two_lines ++ line_breaks text_two_lines) <= 238)%nat
  /\ (10 ∈ text_two_lines -> line_breaks text_two_lines = [10; 10])
  /\ (10 ∉ text_two_lines -> line_breaks text_two_lines = [10; 10; 10])
  /\ 16 * (DS021t_num_blocks
             (Z.of_nat (length (text_two_lines ++ line_breaks text_two_lines)))
           - 1)
     < Z.of_nat (length (text_two_lines ++ line_breaks text_two_lines)) + 2
     <= 16 * DS021t_num_blocks
               (Z.of_nat (length (text_two_lines ++ line_breaks text_two_lines)))
  /\ exists message w',
       DS021t_message ((Some <$> text_two_lines) ++ [Some 0]) = Ok message
       /\ C.cstr message = Ok (text_two_lines ++ line_breaks text_two_lines)
       /\ C.strlen message
          = Ok (length (text_two_lines ++ line_breaks text_two_lines))
       /\ DS021t 2 ((Some <$> text_two_lines) ++ [Some 0]) initial_world
          = Ok w'
       /\ Serial1 w'
          = Serial1 initial_world ++
            upto_nul
              (bytes "aA" ++ VdvHexCodec 2 ++
               VdvHexCodec
                 (DS021t_num_blocks
                    (Z.of_nat (length (text_two_lines ++
                                       line_breaks text_two_lines)))) ++
               bytes "A0" ++ text_two_lines ++ line_breaks text_two_lines ++
               replicate
                 (Z.to_nat
                    (DS021t_num_blocks
                       (Z.of_nat (length (text_two_lines ++
                                          line_breaks text_two_lines))) * 16
                     - 2
                     - Z.of_nat (length (text_two_lines ++
                                         line_breaks text_two_lines)))) 32).
Proof.
  assert (H1 : C.cstr ((Some <$> text_two_lines) ++ [Some 0])
               = Ok text_two_lines) by reflexivity.
  assert (H2 : has_mapped_pair text_two_lines = false) by reflexivity.
  assert (H3 : (length (text_two_lines ++ line_breaks text_two_lines)
                <= 238)%nat) by (vm_compute; lia).
  split; [exact H1|]. split; [exact H2|]. split; [exact H3|].
  exact (C8_line_breaks_and_block_count 2
           ((Some <$> text_two_lines) ++ [Some 0]) text_two_lines
           initial_world H1 H2 H3).
Defined.

(** C8 as stated fails: it takes the block count it describes to be the one
    of section 3, which counts three line breaks.  The 12-byte text
    ["aaaaaa\naaaaa"] has a line break and no mapped pair; [DS021t] appends
    two line breaks and sends block count 1, the ceiling of (14 + 2) / 16,
    where the formula of section 3 gives 2. *)
Lemma C8_block_count_not_section3 :
  (10 ∈ text_two_lines)
  /\ CharsetNormalizer text_two_lines = text_two_lines
  /\ (exists w',
        DS021t 2 ((Some <$> text_two_lines) ++ [Some 0]) initial_world = Ok w'
        /\ Serial1 w'
           = bytes "aA2" ++ VdvHexCodec 1 ++ bytes "A0" ++
             text_two_lines ++ [10; 10] ++ [13; 75])
  /\ DS021t_num_blocks (Z.of_nat (length (text_two_lines ++ [10; 10]))) = 1
  /\ section3_BlockCount (CharsetNormalizer text_two_lines) = 2.
Proof.
  split.
  { unfold text_two_lines. rewrite !elem_of_app.
    right. left. apply list_elem_of_here. }
  split; [reflexivity|]. split.
  { eexists. split; [vm_compute; reflexivity | reflexivity]. }
  split; reflexivity.
Qed.

(** ** CommandRouter *)

Ltac strncmp_cases :=
  repeat match goal with
    | |- context [Z.eqb ?x ?y] =>
        destruct (Z.eqb_spec x y); try subst; try lia; cbn [bind]
    end.

(** C7: on the lighting topic a payload that begins with ["On"] makes one
    [digitalWrite] of HIGH to the lighting pin, one that begins with ["Off"]
    one [digitalWrite] of LOW (so ["Offline"] does); the comparison is by
    byte, so ["on"] and ["OFF"] match neither; and a payload that matches
    neither leaves the world, the lighting pin with it, as it is.  In each
    case the callback returns, and nothing but the pin changes. *)
Theorem C7_lighting_prefix_match (topic : buffer) (payload : list Z) (w : World) :
  C.cstr topic = Ok (bytes "home/flipdot/lighting") ->
  let r := mqtt_callback topic (Some <$> payload) (length payload) w in
  (bytes "On" `prefix_of` payload ->
   exists w',
     r = Ok w'
     /\ gpio w' = gpio w ++ [(lightingPin, HIGH)]
     /\ Serial w' = Serial w /\ Serial1 w' = Serial1 w
     /\ flipdotMessage_str w' = flipdotMessage_str w)
  /\ (bytes "Off" `prefix_of` payload ->
      exists w',
        r = Ok w'
        /\ gpio w' = gpio w ++ [(lightingPin, LOW)]
        /\ Serial w' = Serial w /\ Serial1 w' = Serial1 w
        /\ flipdotMessage_str w' = flipdotMessage_str w)
  /\ (~ bytes "On" `prefix_of` payload -> ~ bytes "Off" `prefix_of` payload ->
      r = Ok w)
  /\ bytes "Off" `prefix_of` bytes "Offline"
  /\ ~ bytes "On" `prefix_of` bytes "on"
  /\ ~ bytes "Off" `prefix_of` bytes "OFF".
Proof.
  intros Hc r. unfold r. rewrite mqtt_callback_lighting by exact Hc.
  change (lit "On") with [Some 79; Some 110; Some 0].
  change (lit "Off") with [Some 79; Some 102; Some 102; Some 0].
  split; [|split; [|split]].
  - intros [k ->]. change (bytes "On" ++ k) with (79 :: 110 :: k).
    exists (digitalWrite lightingPin HIGH w).
    split; [reflexivity|]. cbn [digitalWrite gpio Serial Serial1
                                 flipdotMessage_str]. now repeat split.
  - intros [k ->]. change (bytes "Off" ++ k) with (79 :: 102 :: 102 :: k).
    exists (digitalWrite lightingPin LOW w).
    split; [reflexivity|]. cbn [digitalWrite gpio Serial Serial1
                                 flipdotMessage_str]. now repeat split.
  - intros HOn HOff.
    assert (H1 : forall k, payload <> 79 :: 110 :: k)
      by (intros k ->; apply HOn; now exists k).
    assert (H2 : forall k, payload <> 79 :: 102 :: 102 :: k)
      by (intros k ->; apply HOff; now exists k).
    destruct payload as [|a [|b [|c p]]];
      cbn [take fmap list_fmap app length C.strncmp bind];
      strncmp_cases; try reflexivity; exfalso.
    + now apply (H1 []).
    + now apply (H1 (c :: p)).
    + now apply (H2 p).
  - split; [now exists (bytes "line")|].
    split; intros [k E]; discriminate E.
Qed.

Lemma C7_lighting_prefix_match_witness :
  C.cstr topic_lighting = Ok (bytes "home/flipdot/lighting")
  /\ (bytes "Off" `prefix_of` bytes "Offline" ->
      exists w',
        mqtt_callback topic_lighting (Some <$> bytes "Offline")
          (length (bytes "Offline")) initial_world = Ok w'
        /\ gpio w' = gpio initial_world ++ [(lightingPin, LOW)]
        /\ Serial w' = Serial initial_world
        /\ Serial1 w' = Serial1 initial_world
        /\ flipdotMessage_str w' = flipdotMessage_str initial_world).
Proof.
  split; [reflexivity|].
  exact (proj1 (proj2 (C7_lighting_prefix_match topic_lighting
                         (bytes "Offline") initial_world eq_refl))).
Defined.

(** C10: on any topic other than the two subscribed ones [mqtt_callback]
    returns with the world unchanged: nothing printed, nothing written to
    [Serial1], no [digitalWrite], [flipdotMessage_str] as before. *)
Theorem C10_other_topics_change_nothing
  (topic : buffer) (t : list Z) (payload : buffer) (len : nat) (w : World) :
  C.cstr topic = Ok t ->
  t <> bytes "home/flipdot/message" ->
  t <> bytes "home/flipdot/lighting" ->
  (len <= length payload)%nat ->
  mqtt_callback topic payload len w = Ok w.
Proof.
  intros Hc Hm Hl Hlen.
  unfold mqtt_callback, C.memcpy, topic_message, topic_lighting.
  change (256 - 1)%nat with 255%nat.
  replace (min len 255 <=? length payload)%nat with true
    by (symmetry; apply Nat.leb_le; lia).
  replace (min len 255 <=? length (uninit 256))%nat with true
    by (symmetry; apply Nat.leb_le; unfold uninit;
        rewrite length_replicate; lia).
  cbn [andb bind].
  rewrite store_Ok
    by (unfold uninit; rewrite length_app, length_take, length_drop,
          length_replicate; lia).
  cbn [bind].
  destruct (strcmp_topic topic _ "home/flipdot/message" Hc)
    as (z1 & -> & Hz1); [now apply nonzero_bytes|].
  destruct (strcmp_topic topic _ "home/flipdot/lighting" Hc)
    as (z2 & -> & Hz2); [now apply nonzero_bytes|].
  cbn [bind].
  destruct (Z.eqb_spec z1 0) as [E|_]; [now apply Hz1 in E|].
  destruct (Z.eqb_spec z2 0) as [E|_]; [now apply Hz2 in E|].
  reflexivity.
Qed.

Lemma C10_other_topics_change_nothing_witness :
  C.cstr (lit "home/flipdot/status") = Ok (bytes "home/flipdot/status")
  /\ bytes "home/flipdot/status" <> bytes "home/flipdot/message"
  /\ bytes "home/flipdot/status" <> bytes "home/flipdot/lighting"
  /\ (2 <= length (Some <$> bytes "On"))%nat
  /\ mqtt_callback (lit "home/flipdot/status") (Some <$> bytes "On") 2
       initial_world = Ok initial_world.
Proof.
  assert (H1 : bytes "home/flipdot/status" <> bytes "home/flipdot/message")
    by discriminate.
  assert (H2 : bytes "home/flipdot/status" <> bytes "home/flipdot/lighting")
    by discriminate.
  assert (H3 : (2 <= length (Some <$> bytes "On"))%nat) by (vm_compute; lia).
  split; [reflexivity|]. split; [exact H1|]. split; [exact H2|].
  split; [exact H3|].
  exact (C10_other_topics_change_nothing (lit "home/flipdot/status")
           (bytes "home/flipdot/status") (Some <$> bytes "On") 2
           initial_world eq_refl H1 H2 H3).
Defined.

(** ** Where the code departs from the specification *)

(** C2: a display text of 252 bytes is not rejected.  Its message fills the
    255 characters of [message], the padding loop is to run up to index 269,
    overwrites the terminator at index 255 and then writes outside the
    array. *)
Theorem C2_long_message_overflows :
  mqtt_callback topic_message (replicate 252 (Some 97)) 252 initial_world
  = Fault OutOfBounds
  /\ exists message,
       DS021t_message (replicate 252 (Some 97) ++ [Some 0]) = Ok message
       /\ length message = 256%nat
       /\ C.strlen message = Ok 255%nat
       /\ DS021t_num_blocks 255 * 16 - 2 = 270
       /\ pad_loop 1 message 255 = Ok (<[255%nat := Some 32]> message)
       /\ pad_loop 2 message 255 = Fault OutOfBounds.
Proof.
  split; [vm_compute; reflexivity|].
  eexists. split; [vm_compute; reflexivity|].
  repeat split; vm_compute; reflexivity.
Qed.

(** Between 236 and 251 bytes nothing is rejected either: the telegram needs
    more than the 255 characters [snprintf] keeps, [strncpy] then copies 255
    characters without a terminator, and the normalizer reads
    [processed_telegram[255]], which was never written. *)
Example DS021t_telegram_truncated :
  mqtt_callback topic_message (replicate 236 (Some 97)) 236 initial_world
  = Fault Uninitialised.
Proof. vm_compute. reflexivity. Qed.

(** C3: the display text ["*"] gives a telegram whose checksum byte is NUL;
    [strlen] stops in front of it and the byte is not written to
    [Serial1]. *)
Theorem C3_nul_checksum_not_transmitted :
  TelegramFramer star_payload = star_payload ++ [13; 0]
  /\ exists w',
       mqtt_callback topic_message (Some <$> bytes "*") 1 initial_world = Ok w'
       /\ Serial1 w' = star_payload ++ [13]
       /\ length (Serial1 w') = (length star_payload + 1)%nat.
Proof.
  split; [vm_compute; reflexivity|].
  eexists. split; [vm_compute; reflexivity|].
  split; vm_compute; reflexivity.
Qed.

(** * Further properties of the code *)

(** ** The checksum *)

Lemma fold_lxor_acc (s : list Z) (a : Z) :
  fold_left Z.lxor s a = Z.lxor a (fold_left Z.lxor s 0).
Proof.
  revert a. induction s as [|c s IH]; intros a; cbn [fold_left].
  - now rewrite Z.lxor_0_r.
  - rewrite IH, (IH (Z.lxor 0 c)), Z.lxor_0_l. apply Z.lxor_assoc.
Qed.

Lemma fold_lxor_app (a b : list Z) (acc : Z) :
  fold_left Z.lxor (a ++ b) acc
  = Z.lxor (fold_left Z.lxor a acc) (fold_left Z.lxor b 0).
Proof. rewrite fold_left_app. apply fold_lxor_acc. Qed.

Lemma fold_lxor_permutation (s1 s2 : list Z) :
  s1 ≡ₚ s2 -> forall a, fold_left Z.lxor s1 a = fold_left Z.lxor s2 a.
Proof.
  induction 1 as [|x s1 s2 _ IH|x y s|s1 s2 s3 _ IH1 _ IH2]; intros a;
    cbn [fold_left].
  - reflexivity.
  - apply IH.
  - f_equal. rewrite !Z.lxor_assoc. f_equal. apply Z.lxor_comm.
  - now rewrite IH1.
Qed.

Lemma lxor_cancel_l (a x y : Z) : Z.lxor a x = Z.lxor a y -> x = y.
Proof.
  intros H. apply (f_equal (Z.lxor a)) in H.
  now rewrite <- !Z.lxor_assoc, Z.lxor_nilpotent, !Z.lxor_0_l in H.
Qed.

Lemma checksum_byte_is_byte (s : list Z) : is_byte (checksum_byte s).
Proof.
  apply is_byte_land. unfold checksum_byte.
  now rewrite <- Z.land_assoc, Z.land_diag.
Qed.

(** The checksum of a string that carries its own checksum byte. *)
Lemma checksum_byte_framed (payload : list Z) :
  checksum_byte (TelegramFramer payload) = 0.
Proof.
  unfold TelegramFramer.
  replace (payload ++ [13; checksum_byte (payload ++ [13])])
    with ((payload ++ [13]) ++ [checksum_byte (payload ++ [13])])
    by now rewrite <- app_assoc.
  set (body := payload ++ [13]).
  unfold checksum_byte at 1. unfold ChecksumComputer.
  rewrite fold_lxor_app. cbn [fold_left]. rewrite Z.lxor_0_l.
  rewrite land_lxor_distr.
  replace (Z.land (checksum_byte body) 255) with (checksum_byte body)
    by (symmetry; apply is_byte_land, checksum_byte_is_byte).
  apply Z.lxor_nilpotent.
Qed.

Lemma checksum_byte_upto_nul (payload : list Z) :
  checksum_byte (upto_nul payload) = 0.
Proof.
  unfold upto_nul.
  destruct (Z.eqb_spec (checksum_byte (payload ++ [13])) 0) as [E|_];
    [exact E | apply checksum_byte_framed].
Qed.

(** X1: the checksum does not depend on the order of the bytes. *)
Theorem compute_checksum_order_independent
  (msg1 msg2 : buffer) (s1 s2 : list Z) :
  C.cstr msg1 = Ok s1 -> C.cstr msg2 = Ok s2 -> s1 ≡ₚ s2 ->
  compute_checksum msg1 = compute_checksum msg2.
Proof.
  intros H1 H2 Hp.
  apply cstr_inv in H1 as [Hn1 ->]. apply cstr_inv in H2 as [Hn2 ->].
  rewrite !compute_checksum_holds by assumption.
  unfold checksum_byte, ChecksumComputer.
  now rewrite (fold_lxor_permutation s1 s2 Hp).
Qed.

Lemma compute_checksum_order_independent_witness :
  C.cstr (lit "aA21A0") = Ok (bytes "aA21A0")
  /\ C.cstr (lit "0A12Aa") = Ok (bytes "0A12Aa")
  /\ bytes "aA21A0" ≡ₚ bytes "0A12Aa"
  /\ compute_checksum (lit "aA21A0") = compute_checksum (lit "0A12Aa").
Proof.
  assert (Hp : bytes "aA21A0" ≡ₚ bytes "0A12Aa").
  { change (bytes "aA21A0") with (reverse (bytes "0A12Aa")).
    apply reverse_Permutation. }
  split; [reflexivity|]. split; [reflexivity|]. split; [exact Hp|].
  exact (compute_checksum_order_independent (lit "aA21A0") (lit "0A12Aa")
           (bytes "aA21A0") (bytes "0A12Aa") eq_refl eq_refl Hp).
Defined.

(** X2: two C strings that differ in one position, both bytes there being
    bytes other than NUL and the rest equal, have different checksums.  A
    byte turned into NUL ends the string and is not covered: the sum then
    runs over the bytes in front of it only. *)
Theorem compute_checksum_detects_one_byte
  (msg1 msg2 : buffer) (a b : list Z) (x y : Z) :
  C.cstr msg1 = Ok (a ++ x :: b) -> C.cstr msg2 = Ok (a ++ y :: b) ->
  is_byte x -> is_byte y -> x <> y ->
  compute_checksum msg1 <> compute_checksum msg2.
Proof.
  intros H1 H2 Hx Hy Hne.
  apply cstr_inv in H1 as [Hn1 ->]. apply cstr_inv in H2 as [Hn2 ->].
  rewrite !compute_checksum_holds by assumption.
  unfold checksum_byte, ChecksumComputer. intros [= E]. apply Hne.
  rewrite !fold_lxor_app in E. cbn [fold_left] in E.
  rewrite !(fold_lxor_acc b (Z.lxor 0 _)), !Z.lxor_0_l in E.
  rewrite !land_lxor_distr in E.
  apply is_byte_land in Hx, Hy. rewrite Hx, Hy in E.
  apply lxor_cancel_l in E.
  rewrite (Z.lxor_comm x), (Z.lxor_comm y) in E.
  now apply lxor_cancel_l in E.
Qed.

Lemma compute_checksum_detects_one_byte_witness :
  C.cstr (lit "aA21A0") = Ok (bytes "aA2" ++ 49 :: bytes "A0")
  /\ C.cstr (lit "aA22A0") = Ok (bytes "aA2" ++ 50 :: bytes "A0")
  /\ is_byte 49 /\ is_byte 50 /\ 49 <> 50
  /\ compute_checksum (lit "aA21A0") <> compute_checksum (lit "aA22A0").
Proof.
  assert (H1 : is_byte 49) by (unfold is_byte; lia).
  assert (H2 : is_byte 50) by (unfold is_byte; lia).
  assert (H3 : 49 <> 50) by lia.
  split; [reflexivity|]. split; [reflexivity|].
  split; [exact H1|]. split; [exact H2|]. split; [exact H3|].
  exact (compute_checksum_detects_one_byte (lit "aA21A0") (lit "aA22A0")
           (bytes "aA2") (bytes "A0") 49 50 eq_refl eq_refl H1 H2 H3).
Defined.

(** ** wrap_telegram *)

Section WrapBounds.
Local Open Scope nat_scope.

(** X3: a wrapped telegram checks: the checksum of the array
    [wrap_telegram] leaves is 0. *)
Theorem wrap_telegram_checksum_zero (telegram : buffer) (payload : list Z) :
  C.cstr telegram = Ok payload ->
  length payload + 3 <= length telegram ->
  exists out,
    wrap_telegram telegram = Ok out /\ compute_checksum out = Ok 0%Z.
Proof.
  intros Hc Hlen. apply cstr_inv in Hc as [Hnz Hp].
  destruct (drop_two telegram (S (length payload)) ltac:(lia))
    as (r1 & r2 & rest & Hd).
  rewrite Hp, Hd, wrap_telegram_spec by exact Hnz.
  change (payload ++ [13%Z; checksum_byte (payload ++ [13%Z])])
    with (TelegramFramer payload).
  destruct (framed_holds payload rest) as [rest' ->].
  eexists. split; [reflexivity|].
  rewrite compute_checksum_holds by now apply upto_nul_nonzero.
  now rewrite checksum_byte_upto_nul.
Qed.

Lemma wrap_telegram_checksum_zero_witness :
  C.cstr (lit "aA21A0" ++ uninit 2) = Ok (bytes "aA21A0")
  /\ length (bytes "aA21A0") + 3 <= length (lit "aA21A0" ++ uninit 2)
  /\ exists out,
       wrap_telegram (lit "aA21A0" ++ uninit 2) = Ok out
       /\ compute_checksum out = Ok 0%Z.
Proof.
  assert (H : length (bytes "aA21A0") + 3 <= length (lit "aA21A0" ++ uninit 2))
    by (vm_compute; lia).
  split; [reflexivity|]. split; [exact H|].
  exact (wrap_telegram_checksum_zero (lit "aA21A0" ++ uninit 2)
           (bytes "aA21A0") eq_refl H).
Defined.

(** X4: [wrap_telegram] needs two free bytes behind the terminator; in an
    array without them it writes outside the array. *)
Theorem wrap_telegram_needs_room (telegram : buffer) (payload : list Z) :
  C.cstr telegram = Ok payload ->
  length telegram < length payload + 3 ->
  wrap_telegram telegram = Fault OutOfBounds.
Proof.
  intros Hc Hlen. apply cstr_inv in Hc as [Hnz Hp].
  pose proof (f_equal length Hp) as HL.
  rewrite holds_total in HL. cbn [length] in HL.
  destruct (drop (S (length payload)) telegram) as [|r1 rest] eqn:Hd.
  - rewrite Hp. unfold wrap_telegram, C.strcat.
    rewrite strlen_holds by exact Hnz. cbn [bind C.cstr Z.eqb].
    unfold store_bytes. rewrite holds_total. cbn [length app].
    replace (length payload + 2 <=? length payload + 1) with false
      by (symmetry; apply Nat.leb_gt; lia).
    reflexivity.
  - cbn [length] in HL. assert (rest = []) as ->
      by (destruct rest; [reflexivity | cbn [length] in HL; lia]).
    rewrite Hp. unfold wrap_telegram, C.strcat.
    rewrite strlen_holds by exact Hnz. cbn [bind C.cstr Z.eqb].
    unfold store_bytes. rewrite holds_total. cbn [length app].
    replace (length payload + 2 <=? length payload + 2) with true
      by (symmetry; apply Nat.leb_le; lia).
    cbn [bind].
    rewrite take_app_length' by now rewrite length_fmap.
    rewrite drop_ge by (rewrite holds_total; cbn [length]; lia).
    assert (Hs13 : nonzero (payload ++ [13%Z])).
    { apply nonzero_app; [exact Hnz | repeat constructor; discriminate]. }
    cbn [app fmap list_fmap].
    assert (E : (Some <$> payload) ++ [Some 13%Z; Some 0%Z]
                = (Some <$> payload ++ [13%Z]) ++ Some 0%Z :: []).
    { rewrite fmap_app, <- app_assoc. reflexivity. }
    rewrite E, compute_checksum_holds by exact Hs13. cbn [bind].
    rewrite strlen_holds by exact Hs13. cbn [bind].
    rewrite store_Ok by (rewrite holds_total; cbn [length]; lia).
    cbn [bind]. unfold store. rewrite length_insert, holds_total.
    rewrite length_app. cbn [length].
    replace (length payload + 1 + 1 <? length payload + 1 + 1) with false
      by (symmetry; apply Nat.ltb_ge; lia).
    reflexivity.
Qed.

Lemma wrap_telegram_needs_room_witness :
  C.cstr (lit "aA21A0" ++ uninit 1) = Ok (bytes "aA21A0")
  /\ length (lit "aA21A0" ++ uninit 1) < length (bytes "aA21A0") + 3
  /\ wrap_telegram (lit "aA21A0" ++ uninit 1) = Fault OutOfBounds.
Proof.
  assert (H : length (lit "aA21A0" ++ uninit 1) < length (bytes "aA21A0") + 3)
    by (vm_compute; lia).
  split; [reflexivity|]. split; [exact H|].
  exact (wrap_telegram_needs_room (lit "aA21A0" ++ uninit 1)
           (bytes "aA21A0") eq_refl H).
Defined.

End WrapBounds.

(** ** process_special_characters *)

Lemma CharsetNormalizer_cons_nonempty (d : Z) (s : list Z) :
  exists h t, CharsetNormalizer (d :: s) = h :: t.
Proof.
  destruct s as [|e s]; [now exists d, []|].
  cbn [CharsetNormalizer]. destruct (d =? 0xC3); [|eauto].
  destruct (replacement e); eauto.
Qed.

Lemma has_mapped_pair_cons (c h : Z) (t : list Z) :
  has_mapped_pair (c :: h :: t)
  = ((c =? 0xC3) && mapped h) || has_mapped_pair (h :: t).
Proof. reflexivity. Qed.

Lemma CharsetNormalizer_no_mapped_pair (s : list Z) :
  has_mapped_pair (CharsetNormalizer s) = false.
Proof.
  induction s as [| c | d r s Hr IH | c d s H IH] using CharsetNormalizer_ind.
  - reflexivity.
  - reflexivity.
  - rewrite (CharsetNormalizer_mapped d r) by exact Hr.
    destruct (CharsetNormalizer s) as [|h t]; [reflexivity|].
    rewrite has_mapped_pair_cons, IH.
    apply replacement_Some in Hr as (_ & _ & Hr & _).
    apply Z.eqb_neq in Hr. now rewrite Hr.
  - destruct H as [Hc|Hd].
    + rewrite (CharsetNormalizer_other c) by exact Hc.
      destruct (CharsetNormalizer_cons_nonempty d s) as (h & t & E).
      rewrite E in *. rewrite has_mapped_pair_cons, IH.
      apply Z.eqb_neq in Hc. now rewrite Hc.
    + rewrite (CharsetNormalizer_lone c d) by exact Hd.
      destruct (CharsetNormalizer_head d s Hd) as (h & t & E & Hh).
      rewrite E in *. rewrite has_mapped_pair_cons, IH.
      unfold mapped. rewrite Hh. now rewrite andb_false_r.
Qed.

Lemma CharsetNormalizer_half (s : list Z) :
  (length s <= 2 * length (CharsetNormalizer s))%nat.
Proof.
  induction s as [| c | d r s Hr IH | c d s H IH] using CharsetNormalizer_ind.
  - reflexivity.
  - cbn. lia.
  - rewrite (CharsetNormalizer_mapped d r) by exact Hr. cbn [length] in *. lia.
  - assert (E : CharsetNormalizer (c :: d :: s) = c :: CharsetNormalizer (d :: s)).
    { destruct H; [now apply CharsetNormalizer_other
                  | now apply CharsetNormalizer_lone]. }
    rewrite E. cbn [length] in *. lia.
Qed.

Lemma CharsetNormalizer_bytes_from (s : list Z) :
  Forall (fun c => c ∈ s \/ c ∈ (snd <$> CharsetNormalizer_table))
         (CharsetNormalizer s).
Proof.
  induction s as [| c | d r s Hr IH | c d s H IH] using CharsetNormalizer_ind.
  - constructor.
  - repeat constructor.
  - rewrite (CharsetNormalizer_mapped d r) by exact Hr. constructor.
    + right. apply replacement_Some in Hr as [Hr _].
      apply (list_elem_of_fmap_2 snd) in Hr. exact Hr.
    + eapply Forall_impl; [exact IH|]. cbn. intros x [Hx|Hx]; [left|now right].
      now do 2 apply list_elem_of_further.
  - assert (E : CharsetNormalizer (c :: d :: s) = c :: CharsetNormalizer (d :: s)).
    { destruct H; [now apply CharsetNormalizer_other
                  | now apply CharsetNormalizer_lone]. }
    rewrite E. constructor; [left; apply list_elem_of_here|].
    eapply Forall_impl; [exact IH|]. cbn. intros x [Hx|Hx]; [left|now right].
    now apply list_elem_of_further.
Qed.

Section InPlaceMore.
Local Open Scope nat_scope.

(** The loop on an array whose string never ends: the fault of the scan. *)
Lemma psc_loop_fault (fuel : nat) :
  forall (telegram : buffer) (src dst : nat) (f : fault),
    C.cstr (drop src telegram) = Fault f ->
    dst <= src -> length telegram - src < fuel ->
    psc_loop fuel telegram src dst = Fault f.
Proof.
  induction fuel as [|fuel IH]; intros p src dst f Hc Hd Hf; [lia|].
  rewrite psc_loop_S. unfold load. rewrite <- (Nat.add_0_r src) at 1.
  rewrite <- lookup_drop.
  destruct (drop src p) as [|[c|] q] eqn:Hq; cbn [lookup list_lookup];
    cbn [C.cstr] in Hc; try (injection Hc as <-; reflexivity).
  cbn [bind].
  destruct (c =? 0)%Z eqn:Hc0; [discriminate Hc|].
  assert (Hlt : src < length p).
  { apply (f_equal length) in Hq. rewrite length_drop in Hq.
    cbn [length] in Hq. lia. }
  assert (Hq1 : drop (src + 1) p = q)
    by (rewrite <- drop_drop, Hq; reflexivity).
  assert (Hcq : C.cstr q = Fault f)
    by (destruct (C.cstr q); [discriminate Hc | injection Hc as <-; reflexivity]).
  assert (Hcopy : forall v,
             (let* b := store p dst v in psc_loop fuel b (src + 1) (dst + 1))
             = Fault f).
  { intros v. rewrite store_Ok by lia. cbn [bind]. apply IH.
    - rewrite drop_insert_lt by lia. now rewrite Hq1.
    - lia.
    - rewrite length_insert. lia. }
  destruct (c =? 195)%Z; [|apply Hcopy].
  rewrite <- lookup_drop, Hq. cbn [lookup list_lookup].
  destruct q as [|[d|] q'] eqn:Eq; cbn [lookup list_lookup];
    cbn [C.cstr] in Hcq; try (injection Hcq as <-; reflexivity).
  cbn [bind].
  destruct (replacement d) as [r|] eqn:Hr; [|apply Hcopy].
  apply replacement_Some in Hr as (_ & _ & _ & _).
  assert (Hd0 : (d =? 0)%Z = false).
  { destruct (Z.eqb_spec d 0) as [->|]; [|reflexivity].
    cbn [C.cstr Z.eqb] in Hcq. discriminate Hcq. }
  rewrite Hd0 in Hcq.
  assert (Hcq' : C.cstr q' = Fault f)
    by (destruct (C.cstr q'); [discriminate Hcq | injection Hcq as <-; reflexivity]).
  rewrite store_Ok by lia. cbn [bind]. apply IH.
  - rewrite drop_insert_lt by lia.
    replace (src + 2) with (src + 1 + 1) by lia.
    now rewrite <- drop_drop, Hq1.
  - lia.
  - rewrite length_insert. lia.
Qed.

Lemma process_special_characters_fault (telegram : buffer) (f : fault) :
  C.cstr telegram = Fault f -> process_special_characters telegram = Fault f.
Proof.
  intros H. unfold process_special_characters.
  apply psc_loop_fault; [now rewrite drop_0 | lia | lia].
Qed.

Lemma cstr_uninit (s : list Z) (rest : buffer) :
  nonzero s -> C.cstr ((Some <$> s) ++ None :: rest) = Fault Uninitialised.
Proof.
  induction 1 as [|c s Hc _ IH]; [reflexivity|].
  rewrite fmap_cons. cbn [app C.cstr].
  apply Z.eqb_neq in Hc. now rewrite Hc, IH.
Qed.

Lemma cstr_unterminated (s : list Z) :
  nonzero s -> C.cstr (Some <$> s) = Fault OutOfBounds.
Proof.
  induction 1 as [|c s Hc _ IH]; [reflexivity|].
  rewrite fmap_cons. cbn [C.cstr].
  apply Z.eqb_neq in Hc. now rewrite Hc, IH.
Qed.

End InPlaceMore.

(** X5: the string [process_special_characters] leaves holds no mapped pair
    any more: no lead byte [C3] in it is followed by one of the seven
    continuation bytes. *)
Theorem process_special_characters_leaves_no_pair
  (telegram : buffer) (s : list Z) :
  C.cstr telegram = Ok s ->
  exists out s',
    process_special_characters telegram = Ok out
    /\ C.cstr out = Ok s'
    /\ has_mapped_pair s' = false.
Proof.
  intros H. eexists. exists (CharsetNormalizer s).
  split; [exact (process_special_characters_spec telegram s H)|].
  split; [|apply CharsetNormalizer_no_mapped_pair].
  apply cstr_holds, CharsetNormalizer_nonzero. now apply cstr_inv in H as [H _].
Qed.

Lemma process_special_characters_leaves_no_pair_witness :
  C.cstr (Some <$> [0xC3; 0xC3; 0xA4; 0xA4; 0]) = Ok [0xC3; 0xC3; 0xA4; 0xA4]
  /\ exists out s',
       process_special_characters (Some <$> [0xC3; 0xC3; 0xA4; 0xA4; 0]) = Ok out
       /\ C.cstr out = Ok s'
       /\ has_mapped_pair s' = false.
Proof.
  split; [reflexivity|].
  exact (process_special_characters_leaves_no_pair
           (Some <$> [0xC3; 0xC3; 0xA4; 0xA4; 0]) [0xC3; 0xC3; 0xA4; 0xA4]
           eq_refl).
Defined.

(** X6: the string left is at least half as long as the string found, and
    each of its bytes is a byte of the string found or one of the seven
    output bytes of the table. *)
Theorem process_special_characters_output_bytes
  (telegram : buffer) (s : list Z) :
  C.cstr telegram = Ok s ->
  exists out s',
    process_special_characters telegram = Ok out
    /\ C.cstr out = Ok s'
    /\ (length s <= 2 * length s')%nat
    /\ Forall (fun c => c ∈ s \/ c ∈ [123; 124; 125; 126; 91; 92; 93]) s'.
Proof.
  intros H. eexists. exists (CharsetNormalizer s).
  split; [exact (process_special_characters_spec telegram s H)|].
  split; [|split; [apply CharsetNormalizer_half
                  | apply CharsetNormalizer_bytes_from]].
  apply cstr_holds, CharsetNormalizer_nonzero. now apply cstr_inv in H as [H _].
Qed.

Lemma process_special_characters_output_bytes_witness :
  C.cstr (Some <$> [0xC3; 0xA4; 0xC3; 0xB6; 0]) = Ok [0xC3; 0xA4; 0xC3; 0xB6]
  /\ exists out s',
       process_special_characters (Some <$> [0xC3; 0xA4; 0xC3; 0xB6; 0]) = Ok out
       /\ C.cstr out = Ok s'
       /\ (length [0xC3; 0xA4; 0xC3; 0xB6] <= 2 * length s')%nat
       /\ Forall (fun c => c ∈ [0xC3; 0xA4; 0xC3; 0xB6]
                           \/ c ∈ [123; 124; 125; 126; 91; 92; 93]) s'.
Proof.
  split; [reflexivity|].
  exact (process_special_characters_output_bytes
           (Some <$> [0xC3; 0xA4; 0xC3; 0xB6; 0]) [0xC3; 0xA4; 0xC3; 0xB6]
           eq_refl).
Defined.

(** X7: on a string without a mapped pair the call leaves the whole array
    exactly as it was. *)
Theorem process_special_characters_unchanged
  (telegram : buffer) (s : list Z) :
  C.cstr telegram = Ok s ->
  has_mapped_pair s = false ->
  process_special_characters telegram = Ok telegram.
Proof.
  intros H Hno. rewrite (process_special_characters_spec telegram s H).
  rewrite CharsetNormalizer_fixed by exact Hno.
  apply cstr_inv in H as [_ Hp]. now rewrite <- Hp.
Qed.

Lemma process_special_characters_unchanged_witness :
  C.cstr (lit "aA21A0Hello" ++ uninit 4) = Ok (bytes "aA21A0Hello")
  /\ has_mapped_pair (bytes "aA21A0Hello") = false
  /\ process_special_characters (lit "aA21A0Hello" ++ uninit 4)
     = Ok (lit "aA21A0Hello" ++ uninit 4).
Proof.
  split; [reflexivity|]. split; [reflexivity|].
  exact (process_special_characters_unchanged (lit "aA21A0Hello" ++ uninit 4)
           (bytes "aA21A0Hello") eq_refl eq_refl).
Defined.

(** X8: on an array that holds no terminated string the loop runs off the
    string: the call ends in the fault of the scan for the terminator (a read
    outside the array, or of a byte never written), whatever it has written
    before. *)
Theorem process_special_characters_needs_terminator
  (telegram : buffer) (f : fault) :
  C.cstr telegram = Fault f ->
  process_special_characters telegram = Fault f
  /\ (f = OutOfBounds \/ f = Uninitialised).
Proof.
  intros H. split; [now apply process_special_characters_fault|].
  clear -H. induction telegram as [|[c|] q IH]; cbn [C.cstr] in H.
  - injection H as <-. now left.
  - destruct (c =? 0); [discriminate H|].
    destruct (C.cstr q) as [s|f'] eqn:E; [discriminate H|].
    injection H as <-. now apply IH.
  - injection H as <-. now right.
Qed.

Lemma process_special_characters_needs_terminator_witness :
  C.cstr (Some <$> bytes "abc") = Fault OutOfBounds
  /\ process_special_characters (Some <$> bytes "abc") = Fault OutOfBounds
  /\ (OutOfBounds = OutOfBounds \/ OutOfBounds = Uninitialised).
Proof.
  split; [reflexivity|].
  exact (process_special_characters_needs_terminator (Some <$> bytes "abc")
           OutOfBounds eq_refl).
Defined.

(** ** vdv_hex *)

(** [vdv_hex] as one write of the encoded value and its terminator. *)
Lemma vdv_hex_as_store (value : Z) (output : buffer) :
  vdv_hex value output = store_bytes output 0 (VdvHexCodec value ++ [0]).
Proof.
  unfold vdv_hex, VdvHexCodec.
  destruct (Z.ltb_spec value 0) as [Hneg|Hnn]; cbn [orb].
  { replace ((0 <=? value) && (value <=? 15)) with false by lia.
    now replace ((16 <=? value) && (value <=? 255)) with false by lia. }
  destruct (Z.gtb_spec value 255) as [Hbig|Hle].
  { replace ((0 <=? value) && (value <=? 15)) with false by lia.
    now replace ((16 <=? value) && (value <=? 255)) with false by lia. }
  destruct (Z.gtb_spec value 15) as [Hhi|Hlo].
  - replace ((0 <=? value) && (value <=? 15)) with false by lia.
    replace ((16 <=? value) && (value <=? 255)) with true by lia.
    rewrite Z.shiftr_div_pow2 by lia.
    change 0x0F with (Z.ones 4). rewrite Z.land_ones by lia.
    change (2 ^ 4) with 16.
    pose proof (Z.div_pos value 16 ltac:(lia) ltac:(lia)).
    assert (value / 16 < 16) by (apply Z.div_lt_upper_bound; lia).
    pose proof (Z.mod_pos_bound value 16 ltac:(lia)).
    unfold index.
    replace (value / 16 <? 0) with false by lia.
    replace (value mod 16 <? 0) with false by lia. cbn [bind].
    rewrite !load_vdvhex by lia. cbn [bind].
    now rewrite !vdv_alphabet_nth by lia.
  - replace ((0 <=? value) && (value <=? 15)) with true by lia.
    unfold index. replace (value <? 0) with false by lia. cbn [bind].
    rewrite load_vdvhex by lia. cbn [bind].
    now rewrite vdv_alphabet_nth by lia.
Qed.

Lemma VdvHexCodec_room (value : Z) :
  length (VdvHexCodec value ++ [0]) = vdv_hex_room value.
Proof.
  unfold VdvHexCodec, vdv_hex_room.
  destruct ((0 <=? value) && (value <=? 15)); [reflexivity|].
  now destruct ((16 <=? value) && (value <=? 255)).
Qed.

Lemma VdvHexCodec_decode (value : Z) :
  0 <= value <= 255 -> vdv_decode (VdvHexCodec value) = value.
Proof.
  intros H. unfold VdvHexCodec, vdv_decode.
  destruct (Z_le_gt_dec value 15).
  - replace ((0 <=? value) && (value <=? 15)) with true by lia.
    rewrite vdv_alphabet_nth by lia. cbn [fold_left]. cbv beta. lia.
  - replace ((0 <=? value) && (value <=? 15)) with false by lia.
    replace ((16 <=? value) && (value <=? 255)) with true by lia.
    pose proof (Z.div_pos value 16 ltac:(lia) ltac:(lia)).
    assert (value / 16 < 16) by (apply Z.div_lt_upper_bound; lia).
    pose proof (Z.mod_pos_bound value 16 ltac:(lia)).
    rewrite !vdv_alphabet_nth by lia. cbn [fold_left]. cbv beta.
    pose proof (Z.div_mod value 16 ltac:(lia)). lia.
Qed.

(** X9: round trip.  For a value in [0,255] the characters [vdv_hex] writes,
    read as base-16 digits [c - '0'], give the value back; so different
    values get different fields. *)
Theorem vdv_hex_round_trip (value : Z) (output : buffer) :
  0 <= value <= 255 ->
  (3 <= length output)%nat ->
  exists out s,
    vdv_hex value output = Ok out
    /\ C.cstr out = Ok s
    /\ vdv_decode s = value.
Proof.
  intros Hv Hout. eexists. exists (VdvHexCodec value).
  split; [now apply vdv_hex_spec|].
  split; [apply cstr_holds, VdvHexCodec_nonzero | now apply VdvHexCodec_decode].
Qed.

Lemma vdv_hex_round_trip_witness :
  0 <= 200 <= 255
  /\ (3 <= length (uninit 3))%nat
  /\ exists out s,
       vdv_hex 200 (uninit 3) = Ok out
       /\ C.cstr out = Ok s
       /\ vdv_decode s = 200.
Proof.
  assert (H1 : 0 <= 200 <= 255) by lia.
  assert (H2 : (3 <= length (uninit 3))%nat) by (vm_compute; lia).
  split; [exact H1|]. split; [exact H2|].
  exact (vdv_hex_round_trip 200 (uninit 3) H1 H2).
Defined.

Lemma vdv_hex_out_of_range (value : Z) (output : buffer) :
  value < 0 \/ 255 < value ->
  vdv_hex value output = vdv_hex 255 output.
Proof.
  intros H. rewrite !vdv_hex_as_store. unfold VdvHexCodec.
  replace ((0 <=? value) && (value <=? 15)) with false by lia.
  now replace ((16 <=? value) && (value <=? 255)) with false by lia.
Qed.

(** X10: the sentinel is not a value of its own.  For every value outside
    [0,255] [vdv_hex] does to [output] exactly what it does for 255, whose
    two nibbles are both ['?']. *)
Theorem vdv_hex_sentinel_is_255 (value : Z) (output : buffer) :
  value < 0 \/ 255 < value ->
  vdv_hex value output = vdv_hex 255 output.
Proof. apply vdv_hex_out_of_range. Qed.

Lemma vdv_hex_sentinel_is_255_witness :
  (-1 < 0 \/ 255 < -1)
  /\ vdv_hex (-1) (uninit 3) = vdv_hex 255 (uninit 3).
Proof.
  assert (H : -1 < 0 \/ 255 < -1) by (left; lia).
  split; [exact H|].
  exact (vdv_hex_sentinel_is_255 (-1) (uninit 3) H).
Defined.

(** X11: [vdv_hex] needs two cells of [output] for a value in [0,15] and three
    for any other value.  With fewer it writes outside the array; with enough
    it changes nothing behind them. *)
Theorem vdv_hex_room_needed (value : Z) (output : buffer) :
  ((length output < vdv_hex_room value)%nat ->
   vdv_hex value output = Fault OutOfBounds)
  /\ ((vdv_hex_room value <= length output)%nat ->
      exists out,
        vdv_hex value output = Ok out
        /\ length out = length output
        /\ drop (vdv_hex_room value) out = drop (vdv_hex_room value) output).
Proof.
  rewrite vdv_hex_as_store. unfold store_bytes. cbn [Nat.add take app].
  rewrite VdvHexCodec_room. split; intros H.
  - now replace (vdv_hex_room value <=? length output)%nat with false
      by (symmetry; apply Nat.leb_gt; lia).
  - replace (vdv_hex_room value <=? length output)%nat with true
      by (symmetry; apply Nat.leb_le; lia).
    eexists. split; [reflexivity|].
    assert (L : length (Some <$> VdvHexCodec value ++ [0]) = vdv_hex_room value)
      by now rewrite length_fmap, VdvHexCodec_room.
    split.
    + rewrite take_0, !length_app, L, length_drop. cbn [length]. lia.
    + rewrite take_0. cbn [app]. now rewrite drop_app_length' by (symmetry; exact L).
Qed.

Lemma vdv_hex_room_needed_witness :
  ((length (uninit 2) < vdv_hex_room 200)%nat
   /\ vdv_hex 200 (uninit 2) = Fault OutOfBounds)
  /\ ((vdv_hex_room 7 <= length (uninit 2))%nat
      /\ exists out,
           vdv_hex 7 (uninit 2) = Ok out
           /\ length out = length (uninit 2)
           /\ drop (vdv_hex_room 7) out = drop (vdv_hex_room 7) (uninit 2)).
Proof.
  assert (H1 : (length (uninit 2) < vdv_hex_room 200)%nat) by (vm_compute; lia).
  assert (H2 : (vdv_hex_room 7 <= length (uninit 2))%nat) by (vm_compute; lia).
  split; (split; [assumption|]).
  - exact (proj1 (vdv_hex_room_needed 200 (uninit 2)) H1).
  - exact (proj2 (vdv_hex_room_needed 7 (uninit 2)) H2).
Defined.

(** ** DS021t and send_telegram beyond their capacity *)

Section Capacity.
Local Open Scope nat_scope.

Lemma pad_loop_fault (n : nat) :
  forall (message : buffer) (i : nat),
    i <= length message < i + n ->
    pad_loop n message (Z.of_nat i) = Fault OutOfBounds.
Proof.
  induction n as [|n IH]; intros p i Hi; [lia|].
  cbn [pad_loop]. unfold index.
  replace (Z.of_nat i <? 0)%Z with false by lia. cbn [bind].
  rewrite Nat2Z.id. unfold store.
  destruct (Nat.ltb_spec i (length p)) as [Hlt|Hge]; [|reflexivity].
  cbn [bind]. replace (Z.of_nat i + 1)%Z with (Z.of_nat (i + 1)) by lia.
  apply IH. rewrite length_insert. lia.
Qed.

Lemma strncpy_bytes_long (s : list Z) (rest : buffer) (n : nat) :
  nonzero s -> n <= length s ->
  C.strncpy_bytes ((Some <$> s) ++ rest) n = Ok (take n s).
Proof.
  intros Hs. revert n. induction Hs as [|c s Hc _ IH]; intros n Hn.
  - cbn [length] in Hn. now replace n with 0 by lia.
  - destruct n; [reflexivity|]. cbn [length] in Hn.
    rewrite fmap_cons. cbn [app C.strncpy_bytes take].
    apply Z.eqb_neq in Hc. now rewrite Hc, IH by lia.
Qed.

(** A telegram that fills [telegram] to the last character is copied without
    its terminator. *)
Lemma send_telegram_unterminated (tele : list Z) (rest : buffer) (w : World) :
  nonzero tele -> length tele = 255 ->
  send_telegram ((Some <$> tele) ++ Some 0%Z :: rest) w = Fault Uninitialised.
Proof.
  intros Hnz Hlen. unfold send_telegram, C.strncpy.
  change (256 - 1) with 255.
  rewrite strncpy_bytes_long by (try assumption; lia). cbn [bind].
  rewrite take_ge by lia.
  rewrite store_bytes_0 by (unfold uninit; rewrite length_replicate; lia).
  cbn [bind]. rewrite Hlen.
  change (drop 255 (uninit 256)) with [@None Z].
  rewrite (process_special_characters_fault _ Uninitialised);
    [reflexivity | now apply cstr_uninit].
Qed.

(** [DS021t] up to the call of [send_telegram], while [message] has room for
    the padding. *)
Lemma DS021t_reaches_send (address : Z) (t : list Z) (rest : buffer) (w : World) :
  nonzero t -> length (t ++ line_breaks t) <= 254 ->
  DS021t address ((Some <$> t) ++ Some 0%Z :: rest) w
  = send_telegram
      ((Some <$> take 255 (DS021t_payload address (t ++ line_breaks t))) ++
       Some 0%Z ::
       uninit (255 - length (take 255 (DS021t_payload address
                                         (t ++ line_breaks t))))) w.
Proof.
  intros Ht Hlen. unfold DS021t.
  rewrite DS021t_message_holds by exact Ht. cbn [bind].
  rewrite take_ge by lia.
  set (m := t ++ line_breaks t) in *.
  assert (Hm : nonzero m) by (apply nonzero_app; auto using line_breaks_nonzero).
  rewrite strlen_holds by exact Hm. cbn [bind].
  pose proof (num_blocks_bounds (Z.of_nat (length m)) ltac:(lia)) as HN.
  set (N := DS021t_num_blocks (Z.of_nat (length m))) in *.
  set (k := Z.to_nat (N * 16 - 2 - Z.of_nat (length m))).
  assert (HN16 : (N <= 16)%Z).
  { unfold N, DS021t_num_blocks. rewrite Z.quot_div_nonneg by lia.
    apply Z.lt_succ_r, Z.div_lt_upper_bound; lia. }
  unfold index. replace (N * 16 - 2 <? 0)%Z with false by lia.
  replace (Z.to_nat (N * 16 - 2)) with (length m + k) by lia.
  cbn [bind].
  rewrite pad_loop_holds
    by (unfold uninit; cbn [length]; rewrite length_replicate; lia).
  cbn [bind].
  replace (length m + k) with (length (m ++ replicate k 32%Z))
    by now rewrite length_app, length_replicate.
  rewrite terminate_holds
    by (unfold uninit; cbn [length]; rewrite length_replicate; lia).
  cbn [bind].
  rewrite !vdv_hex_spec by (unfold uninit; rewrite length_replicate; lia).
  cbn [bind].
  rewrite !cstr_holds by auto using VdvHexCodec_nonzero. cbn [bind].
  change (m ++ replicate k 32%Z) with (padded_message m).
  rewrite cstr_holds by now apply padded_message_nonzero. cbn [bind].
  change 256 with (S 255). rewrite snprintf_uninit. cbn [bind].
  reflexivity.
Qed.

Lemma DS021t_overflow (address : Z) (t : list Z) (rest : buffer) (w : World) :
  nonzero t -> 255 <= length (t ++ line_breaks t) ->
  DS021t address ((Some <$> t) ++ Some 0%Z :: rest) w = Fault OutOfBounds.
Proof.
  intros Ht Hlen. unfold DS021t.
  rewrite DS021t_message_holds by exact Ht. cbn [bind].
  set (m := take 255 (t ++ line_breaks t)).
  assert (Hl : length m = 255) by (unfold m; rewrite length_take; lia).
  assert (Hm : nonzero m).
  { unfold m, nonzero. apply Forall_take.
    apply nonzero_app; auto using line_breaks_nonzero. }
  rewrite strlen_holds by exact Hm. cbn [bind]. rewrite Hl.
  change (Z.to_nat (DS021t_num_blocks (Z.of_nat 255) * 16 - 2 - Z.of_nat 255))
    with 15.
  rewrite pad_loop_fault; [reflexivity|].
  rewrite holds_total. unfold uninit. cbn [length].
  rewrite length_replicate. lia.
Qed.

Lemma DS021t_truncated (address : Z) (t : list Z) (rest : buffer) (w : World) :
  nonzero t -> 239 <= length (t ++ line_breaks t) <= 254 ->
  DS021t address ((Some <$> t) ++ Some 0%Z :: rest) w = Fault Uninitialised.
Proof.
  intros Ht Hlen. rewrite DS021t_reaches_send by (try assumption; lia).
  set (m := t ++ line_breaks t) in *.
  assert (Hm : nonzero m) by (apply nonzero_app; auto using line_breaks_nonzero).
  assert (HL : 255 <= length (DS021t_payload address m)).
  { unfold DS021t_payload. rewrite !length_app.
    pose proof (VdvHexCodec_length address).
    pose proof (VdvHexCodec_length (DS021t_num_blocks (Z.of_nat (length m)))).
    pose proof (padded_message_length m) as L.
    pose proof (num_blocks_bounds (Z.of_nat (length m)) ltac:(lia)).
    change (length (bytes "aA")) with 2. change (length (bytes "A0")) with 2.
    lia. }
  apply send_telegram_unterminated.
  - apply Forall_take. now apply DS021t_payload_nonzero.
  - rewrite length_take. lia.
Qed.

Lemma DS021t_message_Ok_inv (text message : buffer) :
  DS021t_message text = Ok message -> exists t, C.cstr text = Ok t.
Proof.
  unfold DS021t_message. intros H.
  apply bind_Ok in H as (b & _ & H).
  apply bind_Ok in H as (s & Hs & _). eauto.
Qed.

Lemma DS021t_Ok_inv (address : Z) (text : buffer) (w w' : World) :
  DS021t address text w = Ok w' ->
  exists t, C.cstr text = Ok t /\ length (t ++ line_breaks t) <= 238.
Proof.
  intros H. pose proof H as H0. unfold DS021t in H0.
  apply bind_Ok in H0 as (message & Hm & _).
  apply DS021t_message_Ok_inv in Hm as [t Ht].
  exists t. split; [exact Ht|].
  apply cstr_inv in Ht as [Hnz Hp]. rewrite Hp in H.
  destruct (Nat.le_gt_cases (length (t ++ line_breaks t)) 238) as [|Hgt];
    [assumption|].
  destruct (Nat.le_gt_cases 255 (length (t ++ line_breaks t))) as [Hbig|Hmid].
  - rewrite DS021t_overflow in H by assumption. discriminate H.
  - rewrite DS021t_truncated in H by (try assumption; lia). discriminate H.
Qed.

End Capacity.

(** The payload as [send_telegram] normalizes it: only the text changes. *)
Lemma DS021t_payload_normalized (address : Z) (t : list Z) :
  CharsetNormalizer (DS021t_payload address (t ++ line_breaks t))
  = bytes "aA" ++ VdvHexCodec address
      ++ VdvHexCodec (DS021t_num_blocks
                        (Z.of_nat (length (t ++ line_breaks t))))
      ++ bytes "A0" ++ CharsetNormalizer t ++ line_breaks t
      ++ replicate
           (Z.to_nat (DS021t_num_blocks
                        (Z.of_nat (length (t ++ line_breaks t))) * 16 - 2
                      - Z.of_nat (length (t ++ line_breaks t)))) 32.
Proof.
  unfold DS021t_payload.
  set (N := DS021t_num_blocks _).
  set (hdr := ((bytes "aA" ++ VdvHexCodec address) ++ VdvHexCodec N) ++ bytes "A0").
  replace (bytes "aA" ++ VdvHexCodec address ++ VdvHexCodec N ++ bytes "A0"
             ++ padded_message (t ++ line_breaks t))
    with (hdr ++ padded_message (t ++ line_breaks t))
    by (unfold hdr; now rewrite <- !app_assoc).
  assert (Hh : no_lead hdr).
  { unfold hdr, no_lead. rewrite !Forall_app.
    repeat split; try apply VdvHexCodec_no_lead;
      repeat constructor; discriminate. }
  rewrite CharsetNormalizer_app_prefix by exact Hh.
  unfold hdr. rewrite <- !app_assoc. do 4 f_equal.
  unfold padded_message. set (k := Z.to_nat _). rewrite <- app_assoc.
  assert (E : exists b, line_breaks t ++ replicate k 32 = 10 :: b /\ no_lead b).
  { unfold line_breaks. destruct (existsb _ t); eexists; (split; [reflexivity|]);
      unfold no_lead; repeat (constructor; [discriminate|]);
      apply Forall_replicate; discriminate. }
  destruct E as (b & -> & Hb).
  apply CharsetNormalizer_app_suffix; [reflexivity|].
  constructor; [discriminate | exact Hb].
Qed.

(** X12: capacity.  Whatever the address and the world, [DS021t] returns
    exactly for the texts whose message (text and line breaks) has at most 238
    bytes: 235 bytes of text, or 236 with a line break. *)
Theorem DS021t_returns_iff
  (address : Z) (text : buffer) (t : list Z) (w : World) :
  C.cstr text = Ok t ->
  (exists w', DS021t address text w = Ok w')
  <-> (length (t ++ line_breaks t) <= 238)%nat.
Proof.
  intros Hc. split.
  - intros [w' H]. apply DS021t_Ok_inv in H as (t' & Ht' & Hl).
    rewrite Hc in Ht'. now injection Ht' as <-.
  - intros Hl. apply cstr_inv in Hc as [Hnz Hp]. rewrite Hp.
    destruct (DS021t_holds address t (drop (S (length t)) text) w Hnz Hl)
      as [dbg ->].
    eauto.
Qed.

Lemma DS021t_returns_iff_witness :
  C.cstr (lit "Hello") = Ok (bytes "Hello")
  /\ ((exists w', DS021t 2 (lit "Hello") initial_world = Ok w')
      <-> (length (bytes "Hello" ++ line_breaks (bytes "Hello")) <= 238)%nat).
Proof.
  split; [reflexivity|].
  exact (DS021t_returns_iff 2 (lit "Hello") (bytes "Hello") initial_world
           eq_refl).
Defined.

(** X13: what happens beyond the capacity.  A message of 255 bytes makes the
    padding loop write outside [message]; a message of 239 to 254 bytes gives
    a telegram longer than the 255 characters [snprintf] keeps, which
    [strncpy] copies without terminator, so that the byte behind the copy,
    never written, is read. *)
Theorem DS021t_too_long
  (address : Z) (text : buffer) (t : list Z) (w : World) :
  C.cstr text = Ok t ->
  ((239 <= length (t ++ line_breaks t) <= 254)%nat ->
   DS021t address text w = Fault Uninitialised)
  /\ ((255 <= length (t ++ line_breaks t))%nat ->
      DS021t address text w = Fault OutOfBounds).
Proof.
  intros Hc. apply cstr_inv in Hc as [Hnz Hp]. rewrite Hp.
  split; intros Hl; [now apply DS021t_truncated | now apply DS021t_overflow].
Qed.

Lemma DS021t_too_long_witness :
  C.cstr ((Some <$> text_253) ++ [Some 0]) = Ok text_253
  /\ (255 <= length (text_253 ++ line_breaks text_253))%nat
  /\ DS021t 2 ((Some <$> text_253) ++ [Some 0]) initial_world
     = Fault OutOfBounds.
Proof.
  assert (H1 : C.cstr ((Some <$> text_253) ++ [Some 0]) = Ok text_253)
    by (vm_compute; reflexivity).
  assert (H2 : (255 <= length (text_253 ++ line_breaks text_253))%nat)
    by (vm_compute; lia).
  split; [exact H1|]. split; [exact H2|].
  exact (proj2 (DS021t_too_long 2 ((Some <$> text_253) ++ [Some 0]) text_253
                  initial_world H1) H2).
Defined.

(** X14: with mapped pairs in the text.  The block count and the padding are
    those of the raw message; on [Serial1] the text appears normalized, so
    the bytes between the sub-type marker and the carriage return fall short
    of [16 * N - 2] by one for each pair replaced.  After them come the
    carriage return and the checksum byte, the latter only when it is not
    NUL ([upto_nul]: what [strlen] sees of the framed telegram). *)
Theorem DS021t_sends_normalized_text
  (address : Z) (text : buffer) (t : list Z) (w : World) :
  C.cstr text = Ok t ->
  (length (t ++ line_breaks t) <= 238)%nat ->
  let N := DS021t_num_blocks (Z.of_nat (length (t ++ line_breaks t))) in
  let padding :=
    replicate (Z.to_nat (N * 16 - 2 - Z.of_nat (length (t ++ line_breaks t))))
      32 in
  let payload := CharsetNormalizer t ++ line_breaks t ++ padding in
  exists w',
    DS021t address text w = Ok w'
    /\ Serial1 w'
       = Serial1 w ++
         upto_nul (bytes "aA" ++ VdvHexCodec address ++ VdvHexCodec N ++
                   bytes "A0" ++ payload)
    /\ Z.of_nat (length payload)
       = 16 * N - 2
         - (Z.of_nat (length t) - Z.of_nat (length (CharsetNormalizer t))).
Proof.
  intros Hc Hlen N padding payload.
  apply cstr_inv in Hc as [Hnz Hp]. rewrite Hp.
  destruct (DS021t_holds address t (drop (S (length t)) text) w Hnz Hlen)
    as [dbg ->].
  eexists. split; [reflexivity|]. cbn [Serial1].
  rewrite DS021t_payload_normalized. split; [reflexivity|].
  pose proof (num_blocks_bounds (Z.of_nat (length (t ++ line_breaks t)))
                ltac:(lia)) as HN.
  fold N in HN. unfold payload, padding.
  rewrite !length_app, length_replicate. rewrite length_app in HN. lia.
Qed.

Lemma DS021t_sends_normalized_text_witness :
  C.cstr ((Some <$> text_umlaut) ++ [Some 0]) = Ok text_umlaut
  /\ (length (text_umlaut ++ line_breaks text_umlaut) <= 238)%nat
  /\ exists w',
       DS021t 2 ((Some <$> text_umlaut) ++ [Some 0]) initial_world = Ok w'
       /\ Serial1 w'
          = Serial1 initial_world ++
            upto_nul
              (bytes "aA" ++ VdvHexCodec 2 ++
               VdvHexCodec
                 (DS021t_num_blocks
                    (Z.of_nat (length (text_umlaut ++ line_breaks text_umlaut))))
               ++ bytes "A0" ++
               CharsetNormalizer text_umlaut ++ line_breaks text_umlaut ++
               replicate
                 (Z.to_nat
                    (DS021t_num_blocks
                       (Z.of_nat (length (text_umlaut ++
                                          line_breaks text_umlaut))) * 16 - 2
                     - Z.of_nat (length (text_umlaut ++
                                         line_breaks text_umlaut)))) 32)
       /\ Z.of_nat (length (CharsetNormalizer text_umlaut ++
                            line_breaks text_umlaut ++
                            replicate
                              (Z.to_nat
                                 (DS021t_num_blocks
                                    (Z.of_nat
                                       (length (text_umlaut ++
                                                line_breaks text_umlaut)))
                                  * 16 - 2
                                  - Z.of_nat
                                      (length (text_umlaut ++
                                               line_breaks text_umlaut)))) 32))
          = 16 * DS021t_num_blocks
                   (Z.of_nat (length (text_umlaut ++ line_breaks text_umlaut)))
            - 2
            - (Z.of_nat (length text_umlaut)
               - Z.of_nat (length (CharsetNormalizer text_umlaut))).
Proof.
  assert (H1 : C.cstr ((Some <$> text_umlaut) ++ [Some 0]) = Ok text_umlaut)
    by reflexivity.
  assert (H2 : (length (text_umlaut ++ line_breaks text_umlaut) <= 238)%nat)
    by (vm_compute; lia).
  split; [exact H1|]. split; [exact H2|].
  exact (DS021t_sends_normalized_text 2 ((Some <$> text_umlaut) ++ [Some 0])
           text_umlaut initial_world H1 H2).
Defined.

Lemma DS021t_frame
  (address : Z) (text : buffer) (w w' : World) :
  DS021t address text w = Ok w' ->
  gpio w' = gpio w
  /\ flipdotMessage_str w' = flipdotMessage_str w
  /\ Serial w `prefix_of` Serial w'
  /\ exists sent,
       Serial1 w' = Serial1 w ++ sent
       /\ sent <> []
       /\ compute_checksum ((Some <$> sent) ++ [Some 0]) = Ok 0.
Proof.
  intros H. destruct (DS021t_Ok_inv _ _ _ _ H) as (t & Hc & Hl).
  apply cstr_inv in Hc as [Hnz Hp]. rewrite Hp in H.
  destruct (DS021t_holds address t (drop (S (length t)) text) w Hnz Hl)
    as [dbg E].
  set (w1 := mkWorld _ _ _ _) in E.
  assert (w' = w1) as -> by congruence.
  unfold w1. cbn [gpio flipdotMessage_str Serial Serial1].
  split; [reflexivity|]. split; [reflexivity|].
  split; [now exists dbg|].
  eexists. split; [reflexivity|].
  set (p := CharsetNormalizer _).
  assert (Hu : nonzero (upto_nul p)).
  { apply upto_nul_nonzero, CharsetNormalizer_nonzero, DS021t_payload_nonzero.
    apply nonzero_app; auto using line_breaks_nonzero. }
  split.
  - unfold upto_nul, TelegramFramer.
    destruct (_ =? 0); intros E'; apply (f_equal length) in E';
      rewrite length_app in E'; cbn [length] in E'; lia.
  - rewrite compute_checksum_holds by exact Hu.
    now rewrite checksum_byte_upto_nul.
Qed.

(** X15: whenever [DS021t] returns it has changed nothing but the two serial
    traces: no [digitalWrite], [flipdotMessage_str] as before, the debug
    trace extended, and [Serial1] extended by bytes whose checksum, computed
    as [compute_checksum] does, is 0. *)
Theorem DS021t_changes_only_serial
  (address : Z) (text : buffer) (w w' : World) :
  DS021t address text w = Ok w' ->
  gpio w' = gpio w
  /\ flipdotMessage_str w' = flipdotMessage_str w
  /\ Serial w `prefix_of` Serial w'
  /\ exists sent,
       Serial1 w' = Serial1 w ++ sent
       /\ sent <> []
       /\ compute_checksum ((Some <$> sent) ++ [Some 0]) = Ok 0.
Proof. apply DS021t_frame. Qed.

Lemma DS021t_changes_only_serial_witness :
  DS021t 2 (lit "Hello") initial_world = Ok after_hello
  /\ gpio after_hello = gpio initial_world
  /\ flipdotMessage_str after_hello = flipdotMessage_str initial_world
  /\ Serial initial_world `prefix_of` Serial after_hello
  /\ exists sent,
       Serial1 after_hello = Serial1 initial_world ++ sent
       /\ sent <> []
       /\ compute_checksum ((Some <$> sent) ++ [Some 0]) = Ok 0.
Proof.
  assert (H : DS021t 2 (lit "Hello") initial_world = Ok after_hello)
    by (vm_compute; reflexivity).
  split; [exact H|].
  exact (DS021t_changes_only_serial 2 (lit "Hello") initial_world after_hello H).
Defined.

(** X16: an address outside [0,255] does not abort [DS021t]: in every case it
    does exactly what it does for the address 255, whose field is ["??"]
    too. *)
Theorem DS021t_address_out_of_range (address : Z) (text : buffer) (w : World) :
  address < 0 \/ 255 < address ->
  DS021t address text w = DS021t 255 text w.
Proof.
  intros H. unfold DS021t.
  repeat match goal with
         | |- bind ?x _ = bind ?x _ =>
             destruct x; [cbn [bind] | reflexivity]
         end.
  now rewrite (vdv_hex_out_of_range address) by exact H.
Qed.

Lemma DS021t_address_out_of_range_witness :
  (300 < 0 \/ 255 < 300)
  /\ DS021t 300 (lit "Hello") initial_world
     = DS021t 255 (lit "Hello") initial_world.
Proof.
  assert (H : 300 < 0 \/ 255 < 300) by (right; lia).
  split; [exact H|].
  exact (DS021t_address_out_of_range 300 (lit "Hello") initial_world H).
Defined.

(** ** mqtt_callback *)

Section CallbackMore.
Local Open Scope nat_scope.

Lemma cstr_until_nul (s : list Z) (rest : buffer) :
  C.cstr ((Some <$> s) ++ Some 0%Z :: rest) = Ok (until_nul s).
Proof.
  induction s as [|c s IH]; [reflexivity|].
  rewrite fmap_cons. cbn [app C.cstr until_nul].
  destruct (c =? 0)%Z; [reflexivity|]. now rewrite IH.
Qed.

Lemma until_nul_length (s : list Z) : length (until_nul s) <= length s.
Proof.
  induction s as [|c s IH]; [reflexivity|]. cbn [until_nul].
  destruct (c =? 0)%Z; cbn [length]; lia.
Qed.

Lemma until_nul_nonzero (s : list Z) : nonzero (until_nul s).
Proof.
  induction s as [|c s IH]; [constructor|]. cbn [until_nul].
  destruct (Z.eqb_spec c 0); [constructor | now constructor].
Qed.

Lemma until_nul_id (s : list Z) : nonzero s -> until_nul s = s.
Proof.
  induction 1 as [|c s Hc _ IH]; [reflexivity|]. cbn [until_nul].
  apply Z.eqb_neq in Hc. now rewrite Hc, IH.
Qed.

(** The display branch of [mqtt_callback], with the payload copied. *)
Lemma mqtt_callback_display (topic : buffer) (payload : list Z) (w : World) :
  C.cstr topic = Ok (bytes "home/flipdot/message") ->
  length (flipdotMessage_str w) = 256 ->
  mqtt_callback topic (Some <$> payload) (length payload) w
  = DS021t 2
      ((Some <$> until_nul (take 255 payload)) ++
       Some 0%Z :: uninit (255 - length (until_nul (take 255 payload))))
      (set_flipdotMessage_str
         ((Some <$> take 255 payload) ++
          Some 0%Z :: drop (S (length (take 255 payload)))
                        (flipdotMessage_str w)) w).
Proof.
  intros Hc Hw. unfold mqtt_callback, topic_message.
  rewrite !memcpy_holds by (exact Hw || reflexivity). cbn [bind].
  change (256 - 1) with 255.
  replace (min (length payload) 255) with (length (take 255 payload))
    by (rewrite length_take; lia).
  rewrite terminate_holds
    by (unfold uninit; rewrite length_take, length_replicate; lia).
  cbn [bind].
  destruct (strcmp_topic topic _ "home/flipdot/message" Hc)
    as (z1 & -> & Hz1); [now apply nonzero_bytes|].
  cbn [bind].
  destruct (Z.eqb_spec z1 0) as [_|E]; [|exfalso; now apply E, Hz1].
  rewrite terminate_holds by (rewrite length_take; lia). cbn [bind].
  cbn [set_flipdotMessage_str flipdotMessage_str].
  rewrite cstr_until_nul. cbn [bind].
  change 256 with (S 255). rewrite snprintf_uninit. cbn [bind].
  rewrite take_ge; [reflexivity|].
  pose proof (until_nul_length (take 255 payload)).
  rewrite length_take in H. lia.
Qed.

End CallbackMore.

(** X17: a display command whose text, what stands in front of the first NUL
    among the first 255 bytes of the payload, has a message of at most 238
    bytes, in a world whose [flipdotMessage_str] has its 256 cells.  Then the
    callback returns; [flipdotMessage_str] holds the first 255 bytes of the
    payload and a NUL, the rest of it as before; no [digitalWrite] is made;
    and [Serial1] receives the DS021t telegram of the text for address 2:
    the normalized payload and the carriage return, then the checksum byte
    unless it is NUL. *)
Theorem mqtt_callback_display_command
  (topic : buffer) (payload : list Z) (w : World) :
  C.cstr topic = Ok (bytes "home/flipdot/message") ->
  length (flipdotMessage_str w) = 256%nat ->
  let text := until_nul (take 255 payload) in
  (length (text ++ line_breaks text) <= 238)%nat ->
  exists w',
    mqtt_callback topic (Some <$> payload) (length payload) w = Ok w'
    /\ flipdotMessage_str w'
       = (Some <$> take 255 payload) ++
         Some 0 :: drop (S (length (take 255 payload))) (flipdotMessage_str w)
    /\ gpio w' = gpio w
    /\ Serial1 w'
       = Serial1 w ++
         upto_nul (CharsetNormalizer
                     (DS021t_payload 2 (text ++ line_breaks text))).
Proof.
  intros Hc Hw text Hl.
  rewrite mqtt_callback_display by assumption. fold text.
  destruct (DS021t_holds 2 text (uninit (255 - length text))
              (set_flipdotMessage_str
                 ((Some <$> take 255 payload) ++
                  Some 0 :: drop (S (length (take 255 payload)))
                               (flipdotMessage_str w)) w)
              (until_nul_nonzero _) Hl) as [dbg ->].
  eexists. split; [reflexivity|]. repeat split.
Qed.

Lemma mqtt_callback_display_command_witness :
  C.cstr topic_message = Ok (bytes "home/flipdot/message")
  /\ length (flipdotMessage_str initial_world) = 256%nat
  /\ (length (until_nul (take 255 (bytes "Hello")) ++
              line_breaks (until_nul (take 255 (bytes "Hello")))) <= 238)%nat
  /\ exists w',
       mqtt_callback topic_message (Some <$> bytes "Hello")
         (length (bytes "Hello")) initial_world = Ok w'
       /\ flipdotMessage_str w'
          = (Some <$> take 255 (bytes "Hello")) ++
            Some 0 :: drop (S (length (take 255 (bytes "Hello"))))
                        (flipdotMessage_str initial_world)
       /\ gpio w' = gpio initial_world
       /\ Serial1 w'
          = Serial1 initial_world ++
            upto_nul (CharsetNormalizer
                        (DS021t_payload 2
                           (until_nul (take 255 (bytes "Hello")) ++
                            line_breaks (until_nul (take 255 (bytes "Hello")))))).
Proof.
  assert (H1 : C.cstr topic_message = Ok (bytes "home/flipdot/message"))
    by reflexivity.
  assert (H2 : length (flipdotMessage_str initial_world) = 256%nat)
    by reflexivity.
  assert (H3 : (length (until_nul (take 255 (bytes "Hello")) ++
                        line_breaks (until_nul (take 255 (bytes "Hello"))))
                <= 238)%nat) by (vm_compute; lia).
  split; [exact H1|]. split; [exact H2|]. split; [exact H3|].
  exact (mqtt_callback_display_command topic_message (bytes "Hello")
           initial_world H1 H2 H3).
Defined.

(** X18: a lighting command never fails and never sends: for every payload the
    callback returns, with both serial traces and [flipdotMessage_str] as
    before and at most one [digitalWrite], to the lighting pin. *)
Theorem mqtt_callback_lighting_only_writes_pin
  (topic : buffer) (payload : list Z) (w : World) :
  C.cstr topic = Ok (bytes "home/flipdot/lighting") ->
  exists w',
    mqtt_callback topic (Some <$> payload) (length payload) w = Ok w'
    /\ Serial w' = Serial w
    /\ Serial1 w' = Serial1 w
    /\ flipdotMessage_str w' = flipdotMessage_str w
    /\ (gpio w' = gpio w
        \/ gpio w' = gpio w ++ [(lightingPin, HIGH)]
        \/ gpio w' = gpio w ++ [(lightingPin, LOW)]).
Proof.
  intros Hc. rewrite mqtt_callback_lighting by exact Hc.
  change (lit "On") with [Some 79; Some 110; Some 0].
  change (lit "Off") with [Some 79; Some 102; Some 102; Some 0].
  destruct payload as [|a [|b [|c p]]];
    cbn [take fmap list_fmap app length C.strncmp bind];
    strncmp_cases;
    (eexists; split; [reflexivity|]; cbn; auto 6).
Qed.

Lemma mqtt_callback_lighting_only_writes_pin_witness :
  C.cstr topic_lighting = Ok (bytes "home/flipdot/lighting")
  /\ exists w',
       mqtt_callback topic_lighting (Some <$> bytes "Online")
         (length (bytes "Online")) initial_world = Ok w'
       /\ Serial w' = Serial initial_world
       /\ Serial1 w' = Serial1 initial_world
       /\ flipdotMessage_str w' = flipdotMessage_str initial_world
       /\ (gpio w' = gpio initial_world
           \/ gpio w' = gpio initial_world ++ [(lightingPin, HIGH)]
           \/ gpio w' = gpio initial_world ++ [(lightingPin, LOW)]).
Proof.
  split; [reflexivity|].
  exact (mqtt_callback_lighting_only_writes_pin topic_lighting
           (bytes "Online") initial_world eq_refl).
Defined.

Section Invariant.
Local Open Scope nat_scope.

(** X19: an invariant of the callback.  If [flipdotMessage_str] has its 256
    cells and holds a terminated string, then after every callback that
    returns, on whatever topic, it still does; and the three traces have only
    been extended. *)
Theorem mqtt_callback_keeps_world
  (topic : buffer) (payload : list Z) (w w' : World) :
  world_ok w ->
  mqtt_callback topic (Some <$> payload) (length payload) w = Ok w' ->
  world_ok w'
  /\ Serial w `prefix_of` Serial w'
  /\ Serial1 w `prefix_of` Serial1 w'
  /\ gpio w `prefix_of` gpio w'.
Proof.
  intros Hok. pose proof Hok as [Hlen _]. unfold mqtt_callback.
  rewrite !memcpy_holds by (exact Hlen || reflexivity). cbn [bind].
  change (256 - 1) with 255.
  replace (min (length payload) 255) with (length (take 255 payload))
    by (rewrite length_take; lia).
  rewrite terminate_holds
    by (unfold uninit; rewrite length_take, length_replicate; lia).
  cbn [bind].
  destruct (C.strcmp topic topic_message) as [z1|]; [|discriminate].
  cbn [bind]. destruct (z1 =? 0)%Z.
  - rewrite terminate_holds by (rewrite length_take; lia). cbn [bind].
    cbn [set_flipdotMessage_str flipdotMessage_str].
    rewrite cstr_until_nul. cbn [bind].
    change 256 with (S 255). rewrite snprintf_uninit. cbn [bind].
    intros H. apply DS021t_frame in H as (Hg & Hf & Hs & sent & Hs1 & _).
    cbn [set_flipdotMessage_str flipdotMessage_str gpio Serial Serial1] in *.
    split; [split|].
    + rewrite Hf, holds_total. cbn [length].
      rewrite length_drop, length_take. lia.
    + rewrite Hf, cstr_until_nul. eauto.
    + split; [exact Hs|]. split; [now exists sent | now rewrite Hg].
  - destruct (C.strcmp topic topic_lighting) as [z2|]; [|discriminate].
    cbn [bind]. destruct (z2 =? 0)%Z; [|now intros [= <-]].
    destruct (C.strncmp _ (lit "On") 2) as [c|]; [|discriminate].
    cbn [bind]. destruct (c =? 0)%Z.
    { intros [= <-]. split; [exact Hok|]. cbn.
      split; [reflexivity|]. split; [reflexivity|]. now eexists. }
    destruct (C.strncmp _ (lit "Off") 3) as [c'|]; [|discriminate].
    cbn [bind]. destruct (c' =? 0)%Z.
    { intros [= <-]. split; [exact Hok|]. cbn.
      split; [reflexivity|]. split; [reflexivity|]. now eexists. }
    now intros [= <-].
Qed.

Lemma mqtt_callback_keeps_world_witness :
  world_ok initial_world
  /\ mqtt_callback topic_message (Some <$> bytes "Hello")
       (length (bytes "Hello")) initial_world
     = Ok (set_flipdotMessage_str
             ((Some <$> bytes "Hello") ++ replicate 251 (Some 0%Z))
             after_hello)
  /\ world_ok (set_flipdotMessage_str
                 ((Some <$> bytes "Hello") ++ replicate 251 (Some 0%Z))
                 after_hello).
Proof.
  assert (H1 : world_ok initial_world).
  { split; [reflexivity|]. exists []. reflexivity. }
  assert (H2 : mqtt_callback topic_message (Some <$> bytes "Hello")
                 (length (bytes "Hello")) initial_world
               = Ok (set_flipdotMessage_str
                       ((Some <$> bytes "Hello") ++ replicate 251 (Some 0%Z))
                       after_hello)) by (vm_compute; reflexivity).
  split; [exact H1|]. split; [exact H2|].
  exact (proj1 (mqtt_callback_keeps_world topic_message (bytes "Hello")
                  initial_world _ H1 H2)).
Defined.

End Invariant.

(** ** send_telegram: capacity and debug output *)

Section SendingMore.
Local Open Scope nat_scope.

Lemma hexdigit_nonzero (n : Z) : (0 <= n <= 15)%Z -> hexdigit n <> 0%Z.
Proof.
  intros H.
  assert (E : exists k : nat, k < 16 /\ n = Z.of_nat k)
    by (exists (Z.to_nat n); lia).
  destruct E as (k & Hk & ->). unfold hexdigit. rewrite Nat2Z.id.
  do 16 (destruct k as [|k]; [discriminate|]). lia.
Qed.

Lemma fmt_02X_nonzero (c : Z) : nonzero (fmt_02X (Z.land c 0xFF)).
Proof.
  assert (H : (0 <= Z.land c 0xFF < 256)%Z).
  { change 0xFF%Z with (Z.ones 8). rewrite Z.land_ones by lia.
    apply Z.mod_pos_bound. lia. }
  unfold fmt_02X. rewrite Z.quot_div_nonneg, Z.rem_mod_nonneg by lia.
  pose proof (Z.div_pos (Z.land c 255) 16 ltac:(lia) ltac:(lia)).
  assert (Z.land c 255 / 16 < 16)%Z by (apply Z.div_lt_upper_bound; lia).
  pose proof (Z.mod_pos_bound (Z.land c 255) 16 ltac:(lia)).
  repeat constructor; try discriminate; apply hexdigit_nonzero; lia.
Qed.

Lemma hex_loop_exact (s : list Z) (rest : buffer) :
  nonzero s ->
  forall w,
    hex_loop ((Some <$> s) ++ Some 0%Z :: rest) w
    = Ok (Serial_print (hexdump s) w).
Proof.
  induction 1 as [|c s Hc _ IH]; intros w.
  - cbn. unfold Serial_print. rewrite app_nil_r. now destruct w.
  - rewrite fmap_cons. cbn [app hex_loop].
    apply Z.eqb_neq in Hc. rewrite Hc.
    unfold C.sprintf.
    rewrite (store_string_0 (uninit 4) (fmt_02X (Z.land c 255)))
      by (cbn; lia).
    cbn [bind]. rewrite cstr_holds by apply fmt_02X_nonzero. cbn [bind].
    rewrite IH, Serial_print_print. reflexivity.
Qed.

(** [send_telegram] on every telegram it has room for. *)
Lemma send_telegram_exact (tele : list Z) (rest : buffer) (w : World) :
  nonzero tele -> length tele <= 254 ->
  length (CharsetNormalizer tele) <= 253 ->
  send_telegram ((Some <$> tele) ++ Some 0%Z :: rest) w
  = let sent := upto_nul (CharsetNormalizer tele) in
    Ok (mkWorld
          (Serial w ++ bytes "Sending HEX: " ++ hexdump sent ++ [13; 10]%Z
             ++ bytes "Sending RAW: " ++ sent ++ [13; 10]%Z)
          (Serial1 w ++ sent) (gpio w) (flipdotMessage_str w)).
Proof.
  intros Hnz Hlen Hn. unfold send_telegram, C.strncpy.
  change (256 - 1) with 255.
  rewrite strncpy_bytes_holds by (try assumption; lia). cbn [bind].
  rewrite store_bytes_0
    by (unfold uninit; rewrite length_app, !length_replicate; lia).
  cbn [bind].
  destruct (255 - length tele) as [|k] eqn:Ek; [lia|].
  cbn [replicate]. rewrite fmap_app, <- app_assoc, fmap_cons. cbn [app].
  set (tail := (Some <$> replicate k 0%Z) ++ _).
  assert (Htail : length tail = 255 - length tele).
  { unfold tail, uninit. len_simpl. lia. }
  rewrite (process_special_characters_spec _ tele) by now apply cstr_holds.
  cbn [bind].
  pose proof (CharsetNormalizer_nonzero tele Hnz) as Hnnz.
  set (n := CharsetNormalizer tele) in *.
  destruct (drop_two ((Some <$> tele) ++ Some 0%Z :: tail) (S (length n)))
    as (r1 & r2 & rest' & Hd).
  { rewrite holds_total. cbn [length]. lia. }
  rewrite Hd, wrap_telegram_spec by exact Hnnz. cbn [bind].
  change (n ++ [13%Z; checksum_byte (n ++ [13%Z])]) with (TelegramFramer n).
  destruct (framed_holds n rest') as [rest'' ->].
  pose proof (upto_nul_nonzero n Hnnz) as Hu.
  rewrite hex_loop_exact by exact Hu. cbn [bind].
  rewrite cstr_holds by exact Hu. cbn [bind].
  rewrite strlen_holds by exact Hu. cbn [bind].
  unfold Serial1_write. rewrite load_bytes_holds. cbn [bind].
  unfold Serial_println. rewrite !Serial_print_print.
  unfold Serial_print. cbn [Serial Serial1 gpio flipdotMessage_str].
  cbv zeta. rewrite <- !app_assoc. reflexivity.
Qed.

Lemma send_telegram_long (tele : list Z) (rest : buffer) (w : World) :
  nonzero tele -> 255 <= length tele ->
  send_telegram ((Some <$> tele) ++ Some 0%Z :: rest) w = Fault Uninitialised.
Proof.
  intros Hnz Hlen. unfold send_telegram, C.strncpy.
  change (256 - 1) with 255.
  rewrite strncpy_bytes_long by (try assumption; lia). cbn [bind].
  rewrite store_bytes_0
    by (unfold uninit; rewrite length_take, length_replicate; lia).
  cbn [bind]. rewrite length_take.
  replace (min 255 (length tele)) with 255 by lia.
  change (drop 255 (uninit 256)) with [@None Z].
  rewrite (process_special_characters_fault _ Uninitialised);
    [reflexivity|].
  apply cstr_uninit, Forall_take, Hnz.
Qed.

Lemma wrap_telegram_full (s : list Z) (r : cell) :
  nonzero s ->
  wrap_telegram ((Some <$> s) ++ [Some 0%Z; r]) = Fault OutOfBounds.
Proof.
  intros Hnz. unfold wrap_telegram, C.strcat.
  rewrite strlen_holds by exact Hnz. cbn [bind C.cstr Z.eqb].
  unfold store_bytes. rewrite holds_total. cbn [length app].
  replace (length s + 2 <=? length s + 2) with true
    by (symmetry; apply Nat.leb_le; lia).
  cbn [bind].
  rewrite take_app_length' by now rewrite length_fmap.
  rewrite drop_ge by (rewrite holds_total; cbn [length]; lia).
  assert (Hs13 : nonzero (s ++ [13%Z])).
  { apply nonzero_app; [exact Hnz | repeat constructor; discriminate]. }
  cbn [app fmap list_fmap].
  assert (E : (Some <$> s) ++ [Some 13%Z; Some 0%Z]
              = (Some <$> s ++ [13%Z]) ++ Some 0%Z :: []).
  { rewrite fmap_app, <- app_assoc. reflexivity. }
  rewrite E, compute_checksum_holds by exact Hs13. cbn [bind].
  rewrite strlen_holds by exact Hs13. cbn [bind].
  rewrite store_Ok by (rewrite holds_total; cbn [length]; lia).
  cbn [bind]. unfold store. rewrite length_insert, holds_total.
  rewrite length_app. cbn [length].
  replace (length s + 1 + 1 <? length s + 1 + 1) with false
    by (symmetry; apply Nat.ltb_ge; lia).
  reflexivity.
Qed.

(** A telegram of 254 characters that the normalizer leaves at 254. *)
Lemma send_telegram_full (tele : list Z) (rest : buffer) (w : World) :
  nonzero tele -> length tele = 254 ->
  length (CharsetNormalizer tele) = 254 ->
  send_telegram ((Some <$> tele) ++ Some 0%Z :: rest) w = Fault OutOfBounds.
Proof.
  intros Hnz Hlen Hn. unfold send_telegram, C.strncpy.
  change (256 - 1) with 255.
  rewrite strncpy_bytes_holds by (try assumption; lia). cbn [bind].
  rewrite store_bytes_0
    by (unfold uninit; rewrite length_app, !length_replicate; lia).
  cbn [bind]. rewrite length_app, length_replicate, Hlen.
  change (255 - 254) with 1. change (254 + 1) with 255.
  change (drop 255 (uninit 256)) with [@None Z].
  cbn [replicate]. rewrite fmap_app, <- app_assoc. cbn [fmap list_fmap app].
  rewrite (process_special_characters_spec _ tele) by now apply cstr_holds.
  cbn [bind]. rewrite Hn, <- Hlen, drop_holds.
  rewrite wrap_telegram_full; [reflexivity|].
  now apply CharsetNormalizer_nonzero.
Qed.

End SendingMore.

(** X20: the capacity of [send_telegram].  It returns exactly for the
    telegrams of at most 254 characters that the normalizer brings down to at
    most 253, so that carriage return, checksum and terminator fit the 256
    bytes of [processed_telegram]. *)
Theorem send_telegram_returns_iff
  (telegram : buffer) (tele : list Z) (w : World) :
  C.cstr telegram = Ok tele ->
  (exists w', send_telegram telegram w = Ok w')
  <-> (length tele <= 254 /\ length (CharsetNormalizer tele) <= 253)%nat.
Proof.
  intros Hc. apply cstr_inv in Hc as [Hnz Hp]. rewrite Hp. split.
  - intros [w' H].
    destruct (Nat.le_gt_cases 255 (length tele)) as [Hbig|Hsmall].
    { rewrite send_telegram_long in H by assumption. discriminate H. }
    split; [lia|].
    destruct (Nat.le_gt_cases (length (CharsetNormalizer tele)) 253)
      as [|Hn]; [assumption|].
    pose proof (CharsetNormalizer_length tele).
    rewrite send_telegram_full in H by (try assumption; lia). discriminate H.
  - intros [H1 H2]. rewrite send_telegram_exact by assumption. eauto.
Qed.

Lemma send_telegram_returns_iff_witness :
  C.cstr (lit "aA21A0Hello") = Ok (bytes "aA21A0Hello")
  /\ ((exists w', send_telegram (lit "aA21A0Hello") initial_world = Ok w')
      <-> (length (bytes "aA21A0Hello") <= 254
           /\ length (CharsetNormalizer (bytes "aA21A0Hello")) <= 253)%nat).
Proof.
  split; [reflexivity|].
  exact (send_telegram_returns_iff (lit "aA21A0Hello") (bytes "aA21A0Hello")
           initial_world eq_refl).
Defined.

(** X21: the debug output of [send_telegram].  On [Serial] it prints
    ["Sending HEX: "], two hex digits and a space for each byte, a line end,
    ["Sending RAW: "], the bytes themselves and a line end; the bytes shown
    are exactly the bytes written to [Serial1], both found by scanning for the
    terminator. *)
Theorem send_telegram_debug_echo
  (telegram : buffer) (tele : list Z) (w : World) :
  C.cstr telegram = Ok tele ->
  (length tele <= 253)%nat ->
  exists w' sent,
    send_telegram telegram w = Ok w'
    /\ Serial1 w' = Serial1 w ++ sent
    /\ Serial w'
       = Serial w ++ bytes "Sending HEX: " ++ hexdump sent ++ [13; 10]
           ++ bytes "Sending RAW: " ++ sent ++ [13; 10].
Proof.
  intros Hc Hlen. apply cstr_inv in Hc as [Hnz Hp]. rewrite Hp.
  pose proof (CharsetNormalizer_length tele).
  rewrite send_telegram_exact by (try assumption; lia).
  eexists. eexists. split; [reflexivity|]. split; reflexivity.
Qed.

Lemma send_telegram_debug_echo_witness :
  C.cstr (lit "aA21A0Hello") = Ok (bytes "aA21A0Hello")
  /\ (length (bytes "aA21A0Hello") <= 253)%nat
  /\ exists w' sent,
       send_telegram (lit "aA21A0Hello") initial_world = Ok w'
       /\ Serial1 w' = Serial1 initial_world ++ sent
       /\ Serial w'
          = Serial initial_world ++ bytes "Sending HEX: " ++ hexdump sent
              ++ [13; 10] ++ bytes "Sending RAW: " ++ sent ++ [13; 10].
Proof.
  assert (H : (length (bytes "aA21A0Hello") <= 253)%nat) by (vm_compute; lia).
  split; [reflexivity|]. split; [exact H|].
  exact (send_telegram_debug_echo (lit "aA21A0Hello") (bytes "aA21A0Hello")
           initial_world eq_refl H).
Defined.

(** X22: the longest text the display topic takes.  A display command
    returns exactly when the text in front of the first NUL of its first 255
    payload bytes, with its line breaks, has at most 238 bytes. *)
Theorem mqtt_callback_display_capacity
  (topic : buffer) (payload : list Z) (w : World) :
  C.cstr topic = Ok (bytes "home/flipdot/message") ->
  length (flipdotMessage_str w) = 256%nat ->
  let text := until_nul (take 255 payload) in
  (exists w', mqtt_callback topic (Some <$> payload) (length payload) w = Ok w')
  <-> (length (text ++ line_breaks text) <= 238)%nat.
Proof.
  intros Hc Hw text. rewrite mqtt_callback_display by assumption. fold text.
  split.
  - intros [w' H]. apply DS021t_Ok_inv in H as (t & Ht & Hl).
    rewrite cstr_holds in Ht by apply until_nul_nonzero.
    now injection Ht as <-.
  - intros Hl.
    destruct (DS021t_holds 2 text (uninit (255 - length text))
                (set_flipdotMessage_str
                   ((Some <$> take 255 payload) ++
                    Some 0 :: drop (S (length (take 255 payload)))
                                 (flipdotMessage_str w)) w)
                (until_nul_nonzero _) Hl) as [dbg ->].
    eauto.
Qed.

Lemma mqtt_callback_display_capacity_witness :
  C.cstr topic_message = Ok (bytes "home/flipdot/message")
  /\ length (flipdotMessage_str initial_world) = 256%nat
  /\ ((exists w',
         mqtt_callback topic_message (Some <$> text_253) (length text_253)
           initial_world = Ok w')
      <-> (length (until_nul (take 255 text_253) ++
                   line_breaks (until_nul (take 255 text_253))) <= 238)%nat).
Proof.
  split; [reflexivity|]. split; [reflexivity|].
  exact (mqtt_callback_display_capacity topic_message text_253 initial_world
           eq_refl eq_refl).
Defined.
